(** * Nacos service discovery for Prometheus: a shallow embedding

    The development follows [nacos_discovery.py]: the registry client
    ([NacosClient]), the target builder and the publisher
    ([PrometheusConfigGenerator]) and the cycle ([main]).

    Conventions of the model.
    - A Python value obtained from [response.json()] is a [json] value.  A
      [str] is a Rocq [string], read as a sequence of code points below 256;
      a [float] is carried by its Python [repr].
    - A computation that can raise returns a [result]; a computation that
      also logs, mutates the configuration object or touches the file system
      runs in the monad [M] over a [store].
    - The registry is a function from the request the client sends to the
      outcome of the HTTP exchange. *)

From Stdlib Require Import ZArith Ascii String.
From stdpp Require Import gmap strings list pretty.

Open Scope string_scope.
Open Scope Z_scope.
Open Scope list_scope.

(** ** Values decoded from JSON *)

#[warnings="-register-all"]
Inductive json : Type :=
| JNull
| JBool (b : bool)
| JInt (n : Z)
| JFloat (repr : string)
| JStr (s : string)
| JArr (items : list json)
| JObj (fields : list (string * json)).

(** ** Exceptions *)

Inductive os_error : Type :=
| FileExistsError
| FileNotFoundError
| IsADirectoryError
| NotADirectoryError
| SameFileError.

Inductive exception : Type :=
| TransportError                 (* ConnectionError, Timeout, ... of requests *)
| HTTPError (status : Z)         (* raised by raise_for_status *)
| JSONDecodeError                (* raised by response.json() *)
| ValueError (msg : string)
| KeyError (key : string)
| TypeError
| AttributeError
| OSError (kind : os_error).

#[export] Instance os_error_eq_dec : EqDecision os_error.
Proof. solve_decision. Defined.

#[export] Instance exception_eq_dec : EqDecision exception.
Proof. solve_decision. Defined.

(** [requests.exceptions.RequestException] and its subclasses
    ([JSONDecodeError] is one of them since requests 2.27). *)
Definition is_RequestException (e : exception) : bool :=
  match e with
  | TransportError | HTTPError _ | JSONDecodeError => true
  | _ => false
  end.

(** [IOError] is an alias of [OSError]. *)
Definition is_OSError (e : exception) : bool :=
  match e with
  | OSError _ => true
  | _ => false
  end.

Definition is_Exception (e : exception) : bool := true.

Inductive result (A : Type) : Type :=
| Ok (a : A)
| Raise (e : exception).
Arguments Ok {A} a.
Arguments Raise {A} e.

#[export] Instance result_ret : MRet result := fun A a => Ok a.

#[export] Instance result_bind : MBind result := fun A B k r =>
  match r with
  | Ok a => k a
  | Raise e => Raise e
  end.

(** ** Python primitives on decoded values *)

Module Py.

(** Truth value testing: [None], [False], zero, and empty containers are
    false. *)
Definition truthy (v : json) : bool :=
  match v with
  | JNull => false
  | JBool b => b
  | JInt n => negb (n =? 0)
  | JFloat r => negb (String.eqb r "0.0" || String.eqb r "-0.0")
  | JStr s => negb (String.eqb s EmptyString)
  | JArr items => match items with [] => false | _ => true end
  | JObj fields => match fields with [] => false | _ => true end
  end.

(** Lookup in a dict, kept as its ordered list of items. *)
Fixpoint dict_lookup (key : string) (fields : list (string * json)) : option json :=
  match fields with
  | [] => None
  | (k, v) :: rest => if String.eqb k key then Some v else dict_lookup key rest
  end.

(** [d.get(key, default)]: only a dict has the method. *)
Definition get (d : json) (key : string) (default : json) : result json :=
  match d with
  | JObj fields =>
      match dict_lookup key fields with
      | Some v => Ok v
      | None => Ok default
      end
  | _ => Raise AttributeError
  end.

(** [d[key]] with a string key. *)
Definition getitem (d : json) (key : string) : result json :=
  match d with
  | JObj fields =>
      match dict_lookup key fields with
      | Some v => Ok v
      | None => Raise (KeyError key)
      end
  | _ => Raise TypeError
  end.

Definition chars (s : string) : list json :=
  (fun c => JStr (String c EmptyString)) <$> list_ascii_of_string s.

(** [len(v)] *)
Definition len (v : json) : result nat :=
  match v with
  | JStr s => Ok (String.length s)
  | JArr items => Ok (length items)
  | JObj fields => Ok (length fields)
  | _ => Raise TypeError
  end.

(** The sequence a [for] loop over [v] visits. *)
Definition iter (v : json) : result (list json) :=
  match v with
  | JStr s => Ok (chars s)
  | JArr items => Ok items
  | JObj fields => Ok ((fun kv => JStr kv.1) <$> fields)
  | _ => Raise TypeError
  end.

Definition hex_digit (n : N) : ascii :=
  match n with
  | 0 => "0" | 1 => "1" | 2 => "2" | 3 => "3" | 4 => "4" | 5 => "5"
  | 6 => "6" | 7 => "7" | 8 => "8" | 9 => "9" | 10 => "a" | 11 => "b"
  | 12 => "c" | 13 => "d" | 14 => "e" | _ => "f"
  end%N%char.

Definition hex2 (c : ascii) : string :=
  let n := N_of_ascii c in
  String (hex_digit (n / 16)) (String (hex_digit (n mod 16)) EmptyString).

Definition is_char (c : ascii) (n : N) : bool := (N_of_ascii c =? n)%N.

Definition dquote : ascii := ascii_of_N 34.

Definition contains (c : ascii) (s : string) : bool :=
  existsb (Ascii.eqb c) (list_ascii_of_string s).

(** [str.isprintable] on a code point below 256. *)
Definition printable (c : ascii) : bool :=
  let n := N_of_ascii c in
  ((32 <=? n) && (n <? 127) || (161 <=? n) && negb (n =? 173))%N.

Definition repr_char (quote : ascii) (c : ascii) : string :=
  if Ascii.eqb c quote || is_char c 92 then String "\" (String c EmptyString)
  else if is_char c 9 then "\t"
  else if is_char c 10 then "\n"
  else if is_char c 13 then "\r"
  else if printable c then String c EmptyString
  else "\x" +:+ hex2 c.

(** [repr] of a [str]: single quotes, unless the text has a single quote
    and no double quote. *)
Definition repr_str (s : string) : string :=
  let quote : ascii :=
    if contains "'" s && negb (contains dquote s) then dquote else "'"%char in
  String quote
    (String.concat EmptyString (repr_char quote <$> list_ascii_of_string s)
     +:+ String quote EmptyString).

Fixpoint repr (v : json) : string :=
  match v with
  | JNull => "None"
  | JBool true => "True"
  | JBool false => "False"
  | JInt n => pretty n
  | JFloat r => r
  | JStr s => repr_str s
  | JArr items => "[" +:+ String.concat ", " (map repr items) +:+ "]"
  | JObj fields =>
      "{" +:+ String.concat ", "
                (map (fun kv => match kv with
                                | (k, x) => repr_str k +:+ ": " +:+ repr x
                                end) fields)
          +:+ "}"
  end.

(** [str(v)], which an f-string applies to an interpolated value. *)
Definition str (v : json) : string :=
  match v with
  | JStr s => s
  | _ => repr v
  end.

End Py.


(** ** The [json] module: [json.dump(obj, f, indent=2)]

    The default encoder escapes every character outside the printable
    ASCII range, puts each item of a non-empty list or dict on a line of its
    own, indented by two spaces per nesting level, and separates a key from
    its value by a colon and a space. *)

Module Json.

Definition newline : ascii := ascii_of_N 10.

Fixpoint spaces (n : nat) : string :=
  match n with
  | O => EmptyString
  | S k => String " " (spaces k)
  end.

Definition newline_indent (level : nat) : string :=
  String newline (spaces (2 * level)).

Definition escape_char (c : ascii) : string :=
  if Ascii.eqb c Py.dquote then String "\" (String Py.dquote EmptyString)
  else if Py.is_char c 92 then "\\"
  else if Py.is_char c 10 then "\n"
  else if Py.is_char c 13 then "\r"
  else if Py.is_char c 9 then "\t"
  else if Py.is_char c 12 then "\f"
  else if Py.is_char c 8 then "\b"
  else if (32 <=? N_of_ascii c)%N && (N_of_ascii c <=? 126)%N
       then String c EmptyString
  else "\u00" +:+ Py.hex2 c.

Definition encode_basestring_ascii (s : string) : string :=
  String Py.dquote
    (String.concat EmptyString (escape_char <$> list_ascii_of_string s)
     +:+ String Py.dquote EmptyString).

Definition floatstr (r : string) : string :=
  if String.eqb r "nan" then "NaN"
  else if String.eqb r "inf" then "Infinity"
  else if String.eqb r "-inf" then "-Infinity"
  else r.

Fixpoint iterencode (level : nat) (o : json) : string :=
  match o with
  | JNull => "null"
  | JBool true => "true"
  | JBool false => "false"
  | JInt n => pretty n
  | JFloat r => floatstr r
  | JStr s => encode_basestring_ascii s
  | JArr [] => "[]"
  | JArr items =>
      "[" +:+ newline_indent (S level)
          +:+ String.concat ("," +:+ newline_indent (S level))
                (map (iterencode (S level)) items)
          +:+ newline_indent level +:+ "]"
  | JObj [] => "{}"
  | JObj fields =>
      "{" +:+ newline_indent (S level)
          +:+ String.concat ("," +:+ newline_indent (S level))
                (map (fun kv => match kv with
                                | (k, x) => encode_basestring_ascii k +:+ ": "
                                              +:+ iterencode (S level) x
                                end) fields)
          +:+ newline_indent level +:+ "}"
  end.

(** The text [json.dump(obj, f, indent=2)] writes to [f]. *)
Definition dumps (obj : json) : string := iterencode 0 obj.

End Json.

(** ** The file system: [os], [open] and [shutil]

    A path is kept as the string the program builds; a node is a directory
    or a regular file with its text.  The current directory ["."] always
    exists.  Only structural failures are modelled (a missing parent, a file
    where a directory is needed and the converse). *)

Inductive node : Type :=
| Dir
| File (content : string).

Module os.

Definition is_slash (c : ascii) : bool := Ascii.eqb c "/".

Definition nonempty (s : string) : bool := negb (String.eqb s EmptyString).

(** [p[:i], p[i:]] for [i = p.rfind('/') + 1]. *)
Fixpoint rsplit (p : string) : string * string :=
  match p with
  | EmptyString => (EmptyString, EmptyString)
  | String c r =>
      let '(h, t) := rsplit r in
      if is_slash c || nonempty h then (String c h, t)
      else (EmptyString, String c t)
  end.

Fixpoint rstrip_slash (s : string) : string :=
  match s with
  | EmptyString => EmptyString
  | String c r =>
      let r' := rstrip_slash r in
      if is_slash c && negb (nonempty r') then EmptyString else String c r'
  end.

(** [os.path.basename] *)
Definition path_basename (p : string) : string := (rsplit p).2.

(** [os.path.dirname] *)
Definition path_dirname (p : string) : string :=
  let head := (rsplit p).1 in
  if nonempty (rstrip_slash head) then rstrip_slash head else head.

Definition ends_with_slash (s : string) : bool :=
  match rev (list_ascii_of_string s) with
  | c :: _ => is_slash c
  | [] => false
  end.

Definition starts_with_slash (s : string) : bool :=
  match s with
  | String c _ => is_slash c
  | EmptyString => false
  end.

(** [os.path.join] of two components. *)
Definition path_join (a b : string) : string :=
  if starts_with_slash b then b
  else if negb (nonempty a) || ends_with_slash a then a +:+ b
  else a +:+ "/" +:+ b.

Definition path_isdir (fs : gmap string node) (p : string) : bool :=
  String.eqb p "."
  || match fs !! p with
     | Some Dir => true
     | _ => false
     end.

Definition path_isfile (fs : gmap string node) (p : string) : bool :=
  negb (String.eqb p ".")
  && match fs !! p with
     | Some (File _) => true
     | _ => false
     end.

(** The directories on the way to [rest], outermost first; [seen] is the
    part of the path already read. *)
Fixpoint ancestors (seen rest : string) : list string :=
  let here := if nonempty seen && negb (ends_with_slash seen) then [seen] else [] in
  match rest with
  | EmptyString => here
  | String c r =>
      if is_slash c then here ++ ancestors (seen +:+ "/") r
      else ancestors (seen +:+ String c EmptyString) r
  end.

(** [os.makedirs(name, exist_ok=True)] along the directories [ds]:
    an existing directory is kept, a missing one is created, a regular
    file in the way is an error.  Directories created before a failure
    stay. *)
Fixpoint makedirs_along (ds : list string) (fs : gmap string node)
  : result unit * gmap string node :=
  match ds with
  | [] => (Ok tt, fs)
  | d :: rest =>
      if path_isdir fs d then makedirs_along rest fs
      else if path_isfile fs d then
        (Raise (OSError (match rest with
                         | [] => FileExistsError
                         | _ => NotADirectoryError
                         end)), fs)
      else makedirs_along rest (<[d := Dir]> fs)
  end.

Definition makedirs (name : string) (fs : gmap string node)
  : result unit * gmap string node :=
  makedirs_along (ancestors EmptyString name) fs.

(** [with open(path, 'w') as f: f.write(text)] *)
Definition write_text (path text : string) (fs : gmap string node)
  : result unit * gmap string node :=
  let parent := path_dirname path in
  if nonempty parent && path_isfile fs parent then
    (Raise (OSError NotADirectoryError), fs)
  else if nonempty parent && negb (path_isdir fs parent) then
    (Raise (OSError FileNotFoundError), fs)
  else if path_isdir fs path then (Raise (OSError IsADirectoryError), fs)
  else (Ok tt, <[path := File text]> fs).

End os.

Module shutil.

(** [shutil.copy(src, dst)]: into [dst] when it is a directory, else onto
    it. *)
Definition copy (src dst : string) (fs : gmap string node)
  : result string * gmap string node :=
  let dst := if os.path_isdir fs dst then os.path_join dst (os.path_basename src)
             else dst in
  if String.eqb src dst && os.path_isfile fs src then
    (Raise (OSError SameFileError), fs)
  else if os.path_isdir fs src then (Raise (OSError IsADirectoryError), fs)
  else match fs !! src with
       | Some (File text) =>
           match os.write_text dst text fs with
           | (Ok _, fs') => (Ok dst, fs')
           | (Raise e, fs') => (Raise e, fs')
           end
       | _ => (Raise (OSError FileNotFoundError), fs)
       end.

End shutil.

(** ** The [requests] session and the registry *)

Inductive http_method : Type := GET | POST.

Record request : Type := {
  method : http_method;
  url : string;
  params : list (string * json)
}.

Record response : Type := {
  status_code : Z;
  content : option json   (* the body decoded as JSON, if it is JSON *)
}.

(** What the exchange gives: no response at all (connection refused,
    timeout, ...) or a response. *)
Inductive http_outcome : Type :=
| NoResponse
| Responds (r : response).

Definition registry : Type := request -> http_outcome.

Module Session.

Definition send (reg : registry) (req : request) : result response :=
  match reg req with
  | NoResponse => Raise TransportError
  | Responds r => Ok r
  end.

(** [session.post(url, data=data)] *)
Definition post (reg : registry) (url : string) (data : list (string * json))
  : result response :=
  send reg {| method := POST; url := url; params := data |}.

(** [session.get(url, params=params)] *)
Definition get (reg : registry) (url : string) (params : list (string * json))
  : result response :=
  send reg {| method := GET; url := url; params := params |}.

(** [response.raise_for_status()]: a client error (4xx) or a server error
    (5xx) raises. *)
Definition raise_for_status (r : response) : result unit :=
  if (400 <=? status_code r) && (status_code r <? 600)
  then Raise (HTTPError (status_code r))
  else Ok tt.

(** [response.json()] *)
Definition json (r : response) : result json :=
  match content r with
  | Some v => Ok v
  | None => Raise JSONDecodeError
  end.

End Session.

(** ** Configuration, log and store *)

Record NacosConfig : Type := {
  server : string;
  namespace : string;
  username : string;
  password : string;
  group_name : string;
  token : json
}.

Definition os_getenv (env : gmap string string) (key default : string) : string :=
  match env !! key with
  | Some v => v
  | None => default
  end.

(** [NacosConfig.__init__] *)
Definition NacosConfig_init (env : gmap string string) : NacosConfig :=
  {| server := os_getenv env "NACOS_SERVER" "http://127.0.0.1:8848";
     namespace := os_getenv env "NACOS_NAMESPACE" "dev";
     username := os_getenv env "NACOS_USERNAME" "nacos";
     password := os_getenv env "NACOS_PASSWORD" "nacos";
     group_name := os_getenv env "GROUP_NAME" "DEFAULT_GROUP";
     token := JStr EmptyString |}.

Definition set_token (c : NacosConfig) (t : json) : NacosConfig :=
  {| server := server c; namespace := namespace c; username := username c;
     password := password c; group_name := group_name c; token := t |}.

Inductive level : Type := INFO | ERROR.

(** The messages of the module's logger, with the values they interpolate. *)
Inductive message : Type :=
| Authenticated
| AuthenticationFailed (e : exception)
| RetrievedServices (n : nat)
| FetchServicesFailed (e : exception)
| RetrievedInstances (n : nat) (service_name : json)
| FetchInstancesFailed (service_name : json) (e : exception)
| ConfigurationWritten (path : string)
| ConfigurationCopied (path : string)
| SaveFailed (e : exception)
| CompletedSuccessfully
| ExecutionError (e : exception).

(** What a cycle can change: the configuration object the client holds,
    the file system and the log. *)
Record store : Type := {
  config : NacosConfig;
  files : gmap string node;
  logs : list (level * message)
}.

Definition M (A : Type) : Type := store -> result A * store.

#[export] Instance M_ret : MRet M := fun A a st => (Ok a, st).

#[export] Instance M_bind : MBind M := fun A B k m st =>
  match m st with
  | (Ok a, st') => k a st'
  | (Raise e, st') => (Raise e, st')
  end.

Definition raise {A : Type} (e : exception) : M A := fun st => (Raise e, st).

(** A computation that cannot touch the store. *)
Definition lift {A : Type} (r : result A) : M A := fun st => (r, st).

(** [try: body  except <class> as e: handler e] *)
Definition try_except {A : Type} (body : M A) (class : exception -> bool)
    (handler : exception -> M A) : M A := fun st =>
  match body st with
  | (Raise e, st') => if class e then handler e st' else (Raise e, st')
  | done => done
  end.

Definition get_config : M NacosConfig := fun st => (Ok (config st), st).

Definition put_config (c : NacosConfig) : M unit := fun st =>
  (Ok tt, {| config := c; files := files st; logs := logs st |}).

Definition log (l : level) (m : message) : M unit := fun st =>
  (Ok tt, {| config := config st; files := files st; logs := logs st ++ [(l, m)] |}).

(** A file-system operation run on the store's files. *)
Definition on_files {A : Type}
    (op : gmap string node -> result A * gmap string node) : M A := fun st =>
  let '(r, fs) := op (files st) in
  (r, {| config := config st; files := fs; logs := logs st |}).

Definition assign_token (t : json) : M unit := fun st =>
  (Ok tt, {| config := set_token (config st) t; files := files st; logs := logs st |}).

(** ** [class NacosClient] *)

Module NacosClient.

Definition authenticate (reg : registry) : M unit :=
  cfg ← get_config;
  let auth_url := server cfg +:+ "/nacos/v1/auth/login" in
  let auth_data := [("username", JStr (username cfg));
                    ("password", JStr (password cfg))] in
  try_except
    (response ← lift (Session.post reg auth_url auth_data);
     lift (Session.raise_for_status response);;
     body ← lift (Session.json response);
     access_token ← lift (Py.get body "accessToken" JNull);
     assign_token access_token;;
     cfg' ← get_config;
     if negb (Py.truthy (token cfg'))
     then raise (ValueError "Failed to retrieve access token")
     else log INFO Authenticated)
    is_RequestException
    (fun e => log ERROR (AuthenticationFailed e);; raise e).

Definition get_services (reg : registry) : M json :=
  try_except
    (cfg ← get_config;
     response ← lift (Session.get reg
                        (server cfg +:+ "/nacos/v1/ns/service/list")
                        [("namespaceId", JStr (namespace cfg));
                         ("groupName", JStr (group_name cfg));
                         ("pageNo", JInt 1);
                         ("pageSize", JInt 100);
                         ("accessToken", token cfg)]);
     lift (Session.raise_for_status response);;
     body ← lift (Session.json response);
     services ← lift (Py.get body "doms" (JArr []));
     n ← lift (Py.len services);
     log INFO (RetrievedServices n);;
     mret services)
    is_RequestException
    (fun e => log ERROR (FetchServicesFailed e);; mret (JArr [])).

Definition get_service_instances (reg : registry) (service_name : json) : M json :=
  try_except
    (cfg ← get_config;
     response ← lift (Session.get reg
                        (server cfg +:+ "/nacos/v1/ns/instance/list")
                        [("namespaceId", JStr (namespace cfg));
                         ("serviceName", service_name);
                         ("groupName", JStr (group_name cfg));
                         ("clusters", JStr EmptyString);
                         ("healthyOnly", JBool false);
                         ("accessToken", token cfg)]);
     lift (Session.raise_for_status response);;
     body ← lift (Session.json response);
     instances ← lift (Py.get body "hosts" (JArr []));
     n ← lift (Py.len instances);
     log INFO (RetrievedInstances n service_name);;
     mret instances)
    is_RequestException
    (fun e => log ERROR (FetchInstancesFailed service_name e);; mret (JArr [])).

End NacosClient.

(** ** [class PrometheusConfigGenerator] *)

Module PrometheusConfigGenerator.

(** [f"{instance['ip']}:{instance['port']}"] *)
Definition address (instance : json) : result string :=
  ip ← Py.getitem instance "ip";
  port ← Py.getitem instance "port";
  mret (Py.str ip +:+ ":" +:+ Py.str port).

(** The dict appended for one instance; the address is evaluated for
    ["targets"] and again for the ["instance"] label. *)
Definition target_of (instance service_name : json) : result json :=
  target ← address instance;
  label ← address instance;
  mret (JObj [("targets", JArr [JStr target]);
              ("labels", JObj [("instance", JStr label);
                               ("job", JStr "nacos-discovery");
                               ("service", service_name)])]).

(** The body of [for instance in instances], from the list [targets]
    built so far. *)
Fixpoint append_targets (instances : list json) (service_name : json)
    (targets : list json) : result (list json) :=
  match instances with
  | [] => mret targets
  | instance :: rest =>
      t ← target_of instance service_name;
      append_targets rest service_name (targets ++ [t])
  end.

Definition generate_target_config (instances service_name : json)
  : result (list json) :=
  items ← Py.iter instances;
  append_targets items service_name [].

Definition save_config (targets : list json) (output_path config_dir : string)
  : M unit :=
  try_except
    (on_files (os.makedirs config_dir);;
     on_files (os.write_text output_path (Json.dumps (JArr targets)));;
     log INFO (ConfigurationWritten output_path);;
     let dest_path := os.path_join config_dir (os.path_basename output_path) in
     on_files (shutil.copy output_path dest_path);;
     log INFO (ConfigurationCopied dest_path))
    is_OSError
    (fun e => log ERROR (SaveFailed e);; raise e).

End PrometheusConfigGenerator.

(** ** [main]: one discovery cycle *)

(** The loop [for service_name in services], from the list [all_targets]
    collected so far. *)
Fixpoint collect_targets (reg : registry) (services : list json)
    (all_targets : list json) : M (list json) :=
  match services with
  | [] => mret all_targets
  | service_name :: rest =>
      instances ← NacosClient.get_service_instances reg service_name;
      targets ← lift (PrometheusConfigGenerator.generate_target_config
                        instances service_name);
      collect_targets reg rest (all_targets ++ targets)
  end.

Definition output_path : string := "./app/services.json".
Definition config_dir : string := "./prometheus/conf".

Definition main (env : gmap string string) (reg : registry) : M unit :=
  try_except
    (put_config (NacosConfig_init env);;
     NacosClient.authenticate reg;;
     services ← NacosClient.get_services reg;
     names ← lift (Py.iter services);
     all_targets ← collect_targets reg names [];
     PrometheusConfigGenerator.save_config all_targets output_path config_dir;;
     log INFO CompletedSuccessfully)
    is_Exception
    (fun e => log ERROR (ExecutionError e);; raise e).

(** ** Notions used in the statements *)

(** The store of a client that holds [cfg] and has done nothing yet. *)
Definition store_of (cfg : NacosConfig) : store :=
  {| config := cfg; files := ∅; logs := [] |}.

(** What a client operation returns, and the configuration it leaves, when
    the client holds [cfg].  Client operations depend on nothing else of the
    store (lemmas [*_run] below). *)
Definition returned {A : Type} (m : M A) (cfg : NacosConfig) : result A :=
  (m (store_of cfg)).1.

Definition config_after {A : Type} (m : M A) (cfg : NacosConfig) : NacosConfig :=
  config (m (store_of cfg)).2.

(** The store at the start of a cycle: [config = NacosConfig()]. *)
Definition fresh (env : gmap string string) (st : store) : store :=
  {| config := NacosConfig_init env; files := files st; logs := logs st |}.

(** The configuration the client holds once it has authenticated. *)
Definition session_config (env : gmap string string) (reg : registry) : NacosConfig :=
  config_after (NacosClient.authenticate reg) (NacosConfig_init env).

Definition add_logs (st : store) (l : list (level * message)) : store :=
  {| config := config st; files := files st; logs := logs st ++ l |}.

(** The requests the client sends. *)
Definition login_request (cfg : NacosConfig) : request :=
  {| method := POST;
     url := server cfg +:+ "/nacos/v1/auth/login";
     params := [("username", JStr (username cfg)); ("password", JStr (password cfg))] |}.

Definition service_list_request (cfg : NacosConfig) : request :=
  {| method := GET;
     url := server cfg +:+ "/nacos/v1/ns/service/list";
     params := [("namespaceId", JStr (namespace cfg));
                ("groupName", JStr (group_name cfg));
                ("pageNo", JInt 1);
                ("pageSize", JInt 100);
                ("accessToken", token cfg)] |}.

Definition instance_list_request (cfg : NacosConfig) (service_name : json) : request :=
  {| method := GET;
     url := server cfg +:+ "/nacos/v1/ns/instance/list";
     params := [("namespaceId", JStr (namespace cfg));
                ("serviceName", service_name);
                ("groupName", JStr (group_name cfg));
                ("clusters", JStr EmptyString);
                ("healthyOnly", JBool false);
                ("accessToken", token cfg)] |}.

(** The exchange fails with a transport error or an HTTP error status. *)
Definition transport_or_http_error (o : http_outcome) : bool :=
  match o with
  | NoResponse => true
  | Responds r => (400 <=? status_code r) && (status_code r <? 600)
  end.

(** Instance records. *)
Definition is_record (v : json) : bool :=
  match v with
  | JObj _ => true
  | _ => false
  end.

Definition has_field (key : string) (v : json) : bool :=
  match v with
  | JObj fields =>
      match Py.dict_lookup key fields with
      | Some _ => true
      | None => false
      end
  | _ => false
  end.

Definition has_ip_and_port (v : json) : bool :=
  has_field "ip" v && has_field "port" v.

(** The path of the copy in the watched directory. *)
Definition dest_path : string :=
  os.path_join config_dir (os.path_basename output_path).

(** The text of the regular file at [p], if there is one. *)
Definition text_at (fs : gmap string node) (p : string) : option string :=
  match fs !! p with
  | Some (File text) => Some text
  | _ => None
  end.

(** A file system on which publishing cannot fail: [./app] is a directory,
    no regular file stands where a directory is needed and no directory
    where a file is written. *)
Definition publishable (fs : gmap string node) : bool :=
  os.path_isdir fs "./app"
  && negb (os.path_isfile fs "./prometheus")
  && negb (os.path_isfile fs config_dir)
  && negb (os.path_isdir fs output_path)
  && negb (os.path_isdir fs dest_path).

(** The document a cycle builds from the registry's answers, before it
    publishes it. *)
Definition cycle_document (env : gmap string string) (reg : registry)
  : result (list json) :=
  returned (NacosClient.authenticate reg) (NacosConfig_init env);;
  services ← returned (NacosClient.get_services reg) (session_config env reg);
  names ← Py.iter services;
  returned (collect_targets reg names []) (session_config env reg).

(** [m] returns a value that depends on the configuration only; it leaves
    the configuration and the files as they are and appends to the log. *)
Definition read_only {A : Type} (m : M A) : Prop :=
  forall st, exists l, m st = (returned m (config st), add_logs st l).

(** [d] made a directory unless it is one. *)
Definition ensure_dir (d : string) (fs : gmap string node) : gmap string node :=
  if os.path_isdir fs d then fs else <[d := Dir]> fs.

(** The files after [text] has been published on [fs]. *)
Definition published (text : string) (fs : gmap string node) : gmap string node :=
  <[dest_path := File text]>
    (<[output_path := File text]>
       (ensure_dir config_dir (ensure_dir "./prometheus" fs))).

(** The targets a cycle builds for one service. *)
Definition service_targets (reg : registry) (cfg : NacosConfig) (service_name : json)
  : result (list json) :=
  instances ← returned (NacosClient.get_service_instances reg service_name) cfg;
  PrometheusConfigGenerator.generate_target_config instances service_name.

(** The ["service"] label of a target. *)
Definition service_label (target : json) : option json :=
  match Py.getitem target "labels" with
  | Ok labels =>
      match Py.getitem labels "service" with
      | Ok v => Some v
      | Raise _ => None
      end
  | Raise _ => None
  end.

(** ** Example registries and stores *)

Definition ok (body : json) : http_outcome :=
  Responds {| status_code := 200; content := Some body |}.

Definition status (code : Z) : http_outcome :=
  Responds {| status_code := code; content := None |}.

(** A registry given by its answer to the login, to the service listing
    and to the instance listing of each service. *)
Definition registry_of (login services : http_outcome)
    (instances : json -> http_outcome) : registry := fun req =>
  match method req with
  | POST => login
  | GET =>
      match Py.dict_lookup "serviceName" (params req) with
      | Some service_name => instances service_name
      | None => services
      end
  end.

Definition grants_token : http_outcome := ok (JObj [("accessToken", JStr "secret")]).

Definition lists (names : list json) : http_outcome := ok (JObj [("doms", JArr names)]).

Definition hosts (records : list json) : http_outcome := ok (JObj [("hosts", JArr records)]).

Definition record_a : json :=
  JObj [("ip", JStr "10.0.0.5"); ("port", JInt 8080); ("healthy", JBool false)].

Definition record_without_port : json := JObj [("ip", JStr "10.0.0.7")].

(** The scrape target of the instance 10.0.0.5:8080 of [svc-a]. *)
Definition target_a : json :=
  JObj [("targets", JArr [JStr "10.0.0.5:8080"]);
        ("labels", JObj [("instance", JStr "10.0.0.5:8080");
                         ("job", JStr "nacos-discovery");
                         ("service", JStr "svc-a")])].

Definition registry_a : registry :=
  registry_of grants_token (lists [JStr "svc-a"]) (fun _ => hosts [record_a]).

(** Three services; the instance listing of [svc-b] answers 503. *)
Definition registry_abc : registry :=
  registry_of grants_token (lists [JStr "svc-a"; JStr "svc-b"; JStr "svc-c"])
    (fun name => match name with
                 | JStr "svc-b" => status 503
                 | JStr "svc-c" => hosts [JObj [("ip", JStr "10.0.0.9"); ("port", JInt 9100)]]
                 | _ => hosts [record_a]
                 end).

(** [svc-b] has a record without a port. *)
Definition registry_malformed : registry :=
  registry_of grants_token (lists [JStr "svc-a"; JStr "svc-b"])
    (fun name => match name with
                 | JStr "svc-b" => hosts [record_a; record_without_port]
                 | _ => hosts [record_a]
                 end).

Definition registry_empty : registry :=
  registry_of grants_token (lists []) (fun _ => hosts []).

(** Login answers 200 with a body that has no token. *)
Definition registry_no_token : registry :=
  registry_of (ok (JObj [])) (lists []) (fun _ => hosts []).

(** Login answers 300 with a token. *)
Definition registry_300 : registry :=
  registry_of (Responds {| status_code := 300;
                           content := Some (JObj [("accessToken", JStr "secret")]) |})
    (lists []) (fun _ => hosts []).

Definition registry_down : registry := fun _ => NoResponse.

(** A process started where [./app] exists. *)
Definition store_a : store :=
  {| config := NacosConfig_init ∅; files := {[ "./app" := Dir ]}; logs := [] |}.

(** Every request is answered 200 with a body that has neither [doms] nor
    [hosts]. *)
Definition registry_bare : registry := fun _ => ok (JObj [("count", JInt 0)]).

(** Login answers 200 with an empty token. *)
Definition registry_empty_token : registry :=
  registry_of (ok (JObj [("accessToken", JStr EmptyString)])) (lists []) (fun _ => hosts []).

(** ** [main.py]: the scheduled job

    The scheduler module has a logger of its own; its records are kept
    apart from those of [nacos_discovery]. *)

Inductive job_message : Type :=
| JobStarted
| JobCompleted
| JobFailed (e : exception).

(** The process: what the discovery module can change, and the log of the
    scheduler module. *)
Record process : Type := {
  state : store;
  job_logs : list (level * job_message)
}.

Definition J (A : Type) : Type := process -> result A * process.

#[export] Instance J_ret : MRet J := fun A a p => (Ok a, p).

#[export] Instance J_bind : MBind J := fun A B k m p =>
  match m p with
  | (Ok a, p') => k a p'
  | (Raise e, p') => (Raise e, p')
  end.

Definition job_log (l : level) (m : job_message) : J unit := fun p =>
  (Ok tt, {| state := state p; job_logs := job_logs p ++ [(l, m)] |}).

(** A call into the discovery module. *)
Definition call {A : Type} (m : M A) : J A := fun p =>
  let '(r, st) := m (state p) in
  (r, {| state := st; job_logs := job_logs p |}).

Definition job_try_except {A : Type} (body : J A) (class : exception -> bool)
    (handler : exception -> J A) : J A := fun p =>
  match body p with
  | (Raise e, p') => if class e then handler e p' else (Raise e, p')
  | done => done
  end.

Definition discovery_job (env : gmap string string) (reg : registry) : J unit :=
  job_try_except
    (job_log INFO JobStarted;;
     call (main env reg);;
     job_log INFO JobCompleted)
    is_Exception
    (fun e => job_log ERROR (JobFailed e)).

(** The jobs [run_scheduler] runs one after the other, the first at once
    and the next ones as they fall due, for as long as no signal arrives;
    [regs] gives the registry as it is during each of them.  Signals, the
    exit they cause and the timer are outside the model. *)
Fixpoint discovery_jobs (env : gmap string string) (regs : list registry) : J unit :=
  match regs with
  | [] => mret tt
  | reg :: rest => discovery_job env reg;; discovery_jobs env rest
  end.

(** ** Further notions used in the statements *)

(** A value [len] accepts. *)
Definition sized (v : json) : bool :=
  match v with
  | JStr _ | JArr _ | JObj _ => true
  | _ => false
  end.

(** The registry answers [req] with a status that [raise_for_status]
    accepts and a JSON object. *)
Definition answers_object (reg : registry) (req : request)
    (fields : list (string * json)) : Prop :=
  exists r, reg req = Responds r /\ ~ (400 <= status_code r < 600) /\
            content r = Some (JObj fields).

(** What [response.json().get("accessToken")] gives on an object with
    these fields: the field's value, or [None] when there is none. *)
Definition received_token (fields : list (string * json)) : json :=
  match Py.dict_lookup "accessToken" fields with
  | Some v => v
  | None => JNull
  end.

(** The components of a path, split at its slashes; [current] is the
    component being read. *)
Fixpoint path_components (current rest : string) : list string :=
  match rest with
  | EmptyString => [current]
  | String c r =>
      if os.is_slash c then current :: path_components EmptyString r
      else path_components (current +:+ String c EmptyString) r
  end.

(** A path spelled the way the program spells its own: [.] followed by
    named components, none of them empty, [.] or [..].  Two such spellings
    that differ name different nodes; the file map, keyed by spelling, is
    read on these paths only. *)
Definition canonical (p : string) : bool :=
  match path_components EmptyString p with
  | first :: rest =>
      String.eqb first "."
      && forallb (fun c => os.nonempty c && negb (String.eqb c ".")
                           && negb (String.eqb c "..")) rest
  | [] => false
  end.

(** The paths publishing may write. *)
Definition publish_paths : list string :=
  ["."; "./prometheus"; config_dir; output_path; dest_path;
   os.path_join dest_path (os.path_basename output_path)].

(** * Theorems *)

(** ** Operations that only read the configuration and write to the log *)

Section ReadOnly.

Lemma add_logs_nil st : add_logs st [] = st.
Proof. destruct st; unfold add_logs; simpl. by rewrite app_nil_r. Qed.

Lemma add_logs_app st l1 l2 : add_logs (add_logs st l1) l2 = add_logs st (l1 ++ l2).
Proof. unfold add_logs; simpl. by rewrite app_assoc. Qed.

Lemma read_only_intro {A : Type} (m : M A) (f : NacosConfig -> result A) :
  (forall st, exists l, m st = (f (config st), add_logs st l)) -> read_only m.
Proof.
  intros H st. destruct (H st) as [l Hl].
  destruct (H (store_of (config st))) as [l0 Hl0].
  exists l. unfold returned. rewrite Hl0, Hl. done.
Qed.

Lemma read_only_ret {A : Type} (a : A) : read_only (mret a).
Proof.
  apply (read_only_intro _ (fun _ => Ok a)). intros st. exists [].
  by rewrite add_logs_nil.
Qed.

Lemma read_only_lift {A : Type} (r : result A) : read_only (lift r).
Proof.
  apply (read_only_intro _ (fun _ => r)). intros st. exists [].
  by rewrite add_logs_nil.
Qed.

Lemma read_only_raise {A : Type} (e : exception) : read_only (@raise A e).
Proof.
  apply (read_only_intro _ (fun _ => Raise e)). intros st. exists [].
  by rewrite add_logs_nil.
Qed.

Lemma read_only_log l m : read_only (log l m).
Proof. apply (read_only_intro _ (fun _ => Ok tt)). intros st. by exists [(l, m)]. Qed.

Lemma read_only_get_config : read_only get_config.
Proof.
  apply (read_only_intro _ (fun cfg => Ok cfg)). intros st. exists [].
  by rewrite add_logs_nil.
Qed.

Lemma read_only_bind {A B : Type} (m : M A) (k : A -> M B) :
  read_only m -> (forall a, read_only (k a)) -> read_only (m ≫= k).
Proof.
  intros Hm Hk.
  apply (read_only_intro _ (fun cfg => returned m cfg ≫= fun a => returned (k a) cfg)).
  intros st. destruct (Hm st) as [l Hl].
  unfold mbind at 1, M_bind. rewrite Hl.
  destruct (returned m (config st)) as [a|e]; simpl.
  - destruct (Hk a (add_logs st l)) as [l' Hl']. exists (l ++ l').
    by rewrite Hl', add_logs_app.
  - by exists l.
Qed.

Lemma read_only_try {A : Type} (body : M A) class (handler : exception -> M A) :
  read_only body -> (forall e, read_only (handler e)) ->
  read_only (try_except body class handler).
Proof.
  intros Hb Hh.
  apply (read_only_intro _ (fun cfg =>
           match returned body cfg with
           | Raise e => if class e then returned (handler e) cfg else Raise e
           | Ok a => Ok a
           end)).
  intros st. destruct (Hb st) as [l Hl]. unfold try_except. rewrite Hl.
  destruct (returned body (config st)) as [a|e]; [by exists l|].
  destruct (class e); [|by exists l].
  destruct (Hh e (add_logs st l)) as [l' Hl']. exists (l ++ l').
  by rewrite Hl', add_logs_app.
Qed.

(** What a read-only operation returns does not depend on the store it
    runs in. *)
Lemma read_only_returned {A : Type} (m : M A) st :
  read_only m -> (m st).1 = returned m (config st).
Proof. intros H. destruct (H st) as [l ->]. done. Qed.

Lemma returned_bind {A B : Type} (m : M A) (k : A -> M B) cfg :
  read_only m -> (forall a, read_only (k a)) ->
  returned (m ≫= k) cfg = returned m cfg ≫= fun a => returned (k a) cfg.
Proof.
  intros Hm Hk. unfold returned at 1. unfold mbind at 1, M_bind.
  destruct (Hm (store_of cfg)) as [l Hl]. rewrite Hl. simpl.
  destruct (returned m cfg) as [a|e]; simpl; [|done].
  by rewrite read_only_returned.
Qed.

End ReadOnly.

Ltac solve_read_only :=
  repeat first
    [ apply read_only_try | apply read_only_bind | apply read_only_lift
    | apply read_only_log | apply read_only_get_config | apply read_only_ret
    | apply read_only_raise | intro ].

Section Client.

Variable reg : registry.

Lemma get_services_read_only : read_only (NacosClient.get_services reg).
Proof. unfold NacosClient.get_services. solve_read_only. Qed.

Lemma get_service_instances_read_only service_name :
  read_only (NacosClient.get_service_instances reg service_name).
Proof. unfold NacosClient.get_service_instances. solve_read_only. Qed.

Lemma collect_targets_read_only names all_targets :
  read_only (collect_targets reg names all_targets).
Proof.
  revert all_targets. induction names as [|name rest IH]; intros all_targets; simpl.
  - apply read_only_ret.
  - apply read_only_bind; [apply get_service_instances_read_only|]. intros instances.
    apply read_only_bind; [apply read_only_lift|]. intros targets. apply IH.
Qed.

(** The loop, one service at a time. *)
Lemma returned_collect_targets_cons name rest all_targets cfg :
  returned (collect_targets reg (name :: rest) all_targets) cfg =
  instances ← returned (NacosClient.get_service_instances reg name) cfg;
  targets ← PrometheusConfigGenerator.generate_target_config instances name;
  returned (collect_targets reg rest (all_targets ++ targets)) cfg.
Proof.
  simpl collect_targets.
  rewrite returned_bind;
    [|apply get_service_instances_read_only
     |intro; apply read_only_bind; [apply read_only_lift|intro; apply collect_targets_read_only]].
  destruct (returned _ cfg) as [instances|e]; simpl; [|done].
  rewrite returned_bind; [|apply read_only_lift|intro; apply collect_targets_read_only].
  unfold returned at 1, lift. simpl. done.
Qed.

(** What the enumeration calls return, from the registry's answer. *)
Lemma get_services_failure cfg :
  transport_or_http_error (reg (service_list_request cfg)) = true ->
  returned (NacosClient.get_services reg) cfg = Ok (JArr []).
Proof.
  unfold returned, NacosClient.get_services, try_except, mbind, M_bind, get_config, lift,
    Session.get, Session.send, service_list_request, transport_or_http_error.
  simpl. destruct (reg _) as [|r]; simpl; [done|].
  unfold Session.raise_for_status. intros ->. done.
Qed.

Lemma get_service_instances_failure cfg service_name :
  transport_or_http_error (reg (instance_list_request cfg service_name)) = true ->
  returned (NacosClient.get_service_instances reg service_name) cfg = Ok (JArr []).
Proof.
  unfold returned, NacosClient.get_service_instances, try_except, mbind, M_bind,
    get_config, lift, Session.get, Session.send, instance_list_request,
    transport_or_http_error.
  simpl. destruct (reg _) as [|r]; simpl; [done|].
  unfold Session.raise_for_status. intros ->. done.
Qed.

Lemma get_services_missing_field cfg r fields :
  reg (service_list_request cfg) = Responds r ->
  200 <= status_code r < 300 ->
  content r = Some (JObj fields) ->
  Py.dict_lookup "doms" fields = None ->
  returned (NacosClient.get_services reg) cfg = Ok (JArr []).
Proof.
  intros Hreg Hst Hbody Hmiss.
  unfold returned, NacosClient.get_services, try_except, mbind, M_bind, get_config, lift,
    Session.get, Session.send. simpl.
  unfold service_list_request in Hreg. rewrite Hreg. simpl.
  unfold Session.raise_for_status, Session.json.
  replace (400 <=? status_code r) with false by lia. simpl.
  rewrite Hbody. simpl. rewrite Hmiss. done.
Qed.

Lemma get_service_instances_missing_field cfg service_name r fields :
  reg (instance_list_request cfg service_name) = Responds r ->
  200 <= status_code r < 300 ->
  content r = Some (JObj fields) ->
  Py.dict_lookup "hosts" fields = None ->
  returned (NacosClient.get_service_instances reg service_name) cfg = Ok (JArr []).
Proof.
  intros Hreg Hst Hbody Hmiss.
  unfold returned, NacosClient.get_service_instances, try_except, mbind, M_bind,
    get_config, lift, Session.get, Session.send. simpl.
  unfold instance_list_request in Hreg. rewrite Hreg. simpl.
  unfold Session.raise_for_status, Session.json.
  replace (400 <=? status_code r) with false by lia. simpl.
  rewrite Hbody. simpl. rewrite Hmiss. done.
Qed.

End Client.

Section Authenticate.

Variable reg : registry.

Ltac run_authenticate :=
  unfold returned, config_after, NacosClient.authenticate, try_except, mbind, M_bind,
    get_config, lift, assign_token, raise, log, Session.post, Session.send,
    Session.raise_for_status, Session.json, login_request, Py.get in *;
  simpl in *.

(** [authenticate] changes the configuration object and the log only, and
    what it does depends on the configuration only. *)
Lemma authenticate_run st :
  exists l,
    NacosClient.authenticate reg st =
    (returned (NacosClient.authenticate reg) (config st),
     {| config := config_after (NacosClient.authenticate reg) (config st);
        files := files st;
        logs := logs st ++ l |}).
Proof.
  run_authenticate.
  destruct (reg _) as [|r]; simpl.
  { eexists; reflexivity. }
  destruct ((400 <=? status_code r) && (status_code r <? 600)); simpl.
  { eexists; reflexivity. }
  destruct (content r) as [body|]; simpl; [|eexists; reflexivity].
  destruct body; simpl; try (exists []; rewrite app_nil_r; by destruct st).
  destruct (Py.dict_lookup "accessToken" fields) as [tok|]; simpl.
  - destruct (Py.truthy tok); simpl; [eexists; reflexivity|].
    exists []; rewrite app_nil_r; by destruct st.
  - exists []; rewrite app_nil_r; by destruct st.
Qed.

(** When [authenticate] returns normally. *)
Lemma authenticate_succeeds_iff cfg :
  returned (NacosClient.authenticate reg) cfg = Ok tt <->
  exists r fields tok,
    reg (login_request cfg) = Responds r /\
    ~ (400 <= status_code r < 600) /\
    content r = Some (JObj fields) /\
    Py.dict_lookup "accessToken" fields = Some tok /\
    Py.truthy tok = true.
Proof.
  run_authenticate. split.
  - destruct (reg _) as [|r] eqn:Hr; simpl; [done|].
    destruct ((400 <=? status_code r) && (status_code r <? 600)) eqn:Hs; simpl; [done|].
    destruct (content r) as [body|] eqn:Hc; simpl; [|done].
    destruct body; simpl; try done.
    destruct (Py.dict_lookup "accessToken" fields) as [tok|] eqn:Hf; simpl; [|done].
    destruct (Py.truthy tok) eqn:Ht; simpl; [|done].
    intros _. exists r, fields, tok. split; [done|]. split; [lia|]. done.
  - intros (r & fields & tok & -> & Hs & Hc & Hf & Ht). simpl.
    replace ((400 <=? status_code r) && (status_code r <? 600)) with false by lia.
    simpl. rewrite Hc. simpl. rewrite Hf. simpl. rewrite Ht. done.
Qed.

(** A failed call changes the configuration only when it raises
    [ValueError], and then the token it leaves is the falsy value it
    received. *)
Lemma authenticate_failure cfg e :
  returned (NacosClient.authenticate reg) cfg = Raise e ->
  (e <> ValueError "Failed to retrieve access token" ->
     config_after (NacosClient.authenticate reg) cfg = cfg) /\
  (e = ValueError "Failed to retrieve access token" ->
     Py.truthy (token (config_after (NacosClient.authenticate reg) cfg)) = false).
Proof.
  run_authenticate.
  destruct (reg _) as [|r]; simpl.
  { intros [= <-]. split; done. }
  destruct ((400 <=? status_code r) && (status_code r <? 600)); simpl.
  { intros [= <-]. split; done. }
  destruct (content r) as [body|]; simpl; [|intros [= <-]; split; done].
  destruct body; simpl; try (intros [= <-]; split; done).
  destruct (Py.dict_lookup "accessToken" fields) as [tok|]; simpl.
  - destruct (Py.truthy tok) eqn:Ht; simpl; [done|].
    intros [= <-]. split; done.
  - intros [= <-]. split; done.
Qed.

Lemma authenticate_token cfg r fields tok :
  reg (login_request cfg) = Responds r ->
  ~ (400 <= status_code r < 600) ->
  content r = Some (JObj fields) ->
  Py.dict_lookup "accessToken" fields = Some tok ->
  config_after (NacosClient.authenticate reg) cfg = set_token cfg tok.
Proof.
  intros Hr Hs Hc Hf. run_authenticate. rewrite Hr. simpl.
  replace ((400 <=? status_code r) && (status_code r <? 600)) with false by lia.
  simpl. rewrite Hc. simpl. rewrite Hf. simpl.
  by destruct (Py.truthy tok).
Qed.

End Authenticate.

Section Main.

Variables (env : gmap string string) (reg : registry).

Local Opaque NacosClient.authenticate NacosClient.get_services collect_targets
  PrometheusConfigGenerator.save_config.

(** The cycle up to publishing: the document it has built, in a store
    whose files are untouched. *)
Lemma main_builds st :
  exists l,
    let st' := {| config := session_config env reg; files := files st;
                  logs := logs st ++ l |} in
    match cycle_document env reg with
    | Raise e => exists cfg, main env reg st =
                   (Raise e, {| config := cfg; files := files st; logs := logs st ++ l |})
    | Ok doc =>
        main env reg st =
        match PrometheusConfigGenerator.save_config doc output_path config_dir st' with
        | (Ok _, st'') => (Ok tt, add_logs st'' [(INFO, CompletedSuccessfully)])
        | (Raise e, st'') => (Raise e, add_logs st'' [(ERROR, ExecutionError e)])
        end
    end.
Proof.
  unfold main, cycle_document, try_except, is_Exception, session_config.
  unfold mbind, M_bind, result_bind, put_config, lift, log, raise. simpl.
  destruct (authenticate_run reg
              {| config := NacosConfig_init env; files := files st; logs := logs st |})
    as [l1 H1].
  simpl in H1. rewrite H1. clear H1.
  destruct (returned (NacosClient.authenticate reg) (NacosConfig_init env)) as [[]|e].
  2:{ exists (l1 ++ [(ERROR, ExecutionError e)]). eexists. by rewrite app_assoc. }
  set (cfg1 := config_after (NacosClient.authenticate reg) (NacosConfig_init env)).
  set (st1 := {| config := cfg1; files := files st; logs := logs st ++ l1 |}).
  destruct (get_services_read_only reg st1) as [l2 H2]. rewrite H2. clear H2. simpl.
  destruct (returned (NacosClient.get_services reg) cfg1) as [services|e].
  2:{ exists (l1 ++ l2 ++ [(ERROR, ExecutionError e)]). eexists. simpl.
      by rewrite !app_assoc. }
  destruct (Py.iter services) as [names|e].
  2:{ exists (l1 ++ l2 ++ [(ERROR, ExecutionError e)]). eexists. simpl.
      by rewrite !app_assoc. }
  destruct (collect_targets_read_only reg names [] (add_logs st1 l2)) as [l3 H3].
  rewrite H3. clear H3. simpl.
  destruct (returned (collect_targets reg names []) cfg1) as [doc|e].
  2:{ exists (l1 ++ l2 ++ l3 ++ [(ERROR, ExecutionError e)]). eexists. simpl.
      by rewrite !app_assoc. }
  exists (l1 ++ l2 ++ l3). simpl. unfold add_logs at 2 3. simpl.
  rewrite !app_assoc.
  destruct (PrometheusConfigGenerator.save_config _ _ _ _) as [[[]|e] st4]; done.
Qed.

(** A cycle that fails before publishing raises and leaves the files. *)
Lemma main_raises st e :
  cycle_document env reg = Raise e ->
  (main env reg st).1 = Raise e /\ files (main env reg st).2 = files st.
Proof.
  intros H. destruct (main_builds st) as [l Hl]. simpl in Hl. rewrite H in Hl.
  destruct Hl as [cfg ->]. done.
Qed.

End Main.

Section Publish.

Lemma ancestors_config_dir :
  os.ancestors EmptyString config_dir = ["."; "./prometheus"; "./prometheus/conf"].
Proof. reflexivity. Qed.

Lemma dest_path_eq : dest_path = "./prometheus/conf/services.json".
Proof. reflexivity. Qed.

Lemma path_isdir_insert_ne fs p q n :
  p <> q -> os.path_isdir (<[p := n]> fs) q = os.path_isdir fs q.
Proof. intros H. unfold os.path_isdir. by rewrite lookup_insert_ne. Qed.

Lemma path_isfile_insert_ne fs p q n :
  p <> q -> os.path_isfile (<[p := n]> fs) q = os.path_isfile fs q.
Proof. intros H. unfold os.path_isfile. by rewrite lookup_insert_ne. Qed.

Lemma path_isdir_ensure_dir fs d : os.path_isdir (ensure_dir d fs) d = true.
Proof.
  unfold ensure_dir. destruct (os.path_isdir fs d) eqn:H; [done|].
  unfold os.path_isdir. rewrite lookup_insert_eq. apply orb_true_r.
Qed.

Lemma path_isdir_ensure_dir_ne fs d p :
  d <> p -> os.path_isdir (ensure_dir d fs) p = os.path_isdir fs p.
Proof.
  intros H. unfold ensure_dir. destruct (os.path_isdir fs d); [done|].
  by apply path_isdir_insert_ne.
Qed.

Lemma path_isfile_ensure_dir_ne fs d p :
  d <> p -> os.path_isfile (ensure_dir d fs) p = os.path_isfile fs p.
Proof.
  intros H. unfold ensure_dir. destruct (os.path_isdir fs d); [done|].
  by apply path_isfile_insert_ne.
Qed.

Lemma isdir_not_isfile fs p : os.path_isdir fs p = true -> os.path_isfile fs p = false.
Proof.
  unfold os.path_isdir, os.path_isfile.
  destruct (String.eqb p "."); simpl; [done|]. by destruct (fs !! p) as [[]|].
Qed.

(** [os.makedirs] on the watched directory when no regular file is in the
    way. *)
Lemma makedirs_config_dir fs :
  os.path_isfile fs "./prometheus" = false ->
  os.path_isfile fs config_dir = false ->
  os.makedirs config_dir fs = (Ok tt, ensure_dir config_dir (ensure_dir "./prometheus" fs)).
Proof.
  intros H1 H2. unfold os.makedirs. rewrite ancestors_config_dir.
  unfold os.makedirs_along.
  change (os.path_isdir fs ".") with true. cbv iota.
  unfold ensure_dir at 2.
  destruct (os.path_isdir fs "./prometheus") eqn:Hd.
  - unfold ensure_dir. fold config_dir.
    destruct (os.path_isdir fs config_dir) eqn:Hc; [done|]. by rewrite H2.
  - rewrite H1. change "./prometheus/conf" with config_dir.
    rewrite path_isfile_insert_ne by done. rewrite H2.
    unfold ensure_dir. by destruct (os.path_isdir _ config_dir).
Qed.

Lemma write_text_ok path text fs :
  os.path_isdir fs (os.path_dirname path) = true ->
  os.path_isdir fs path = false ->
  os.write_text path text fs = (Ok tt, <[path := File text]> fs).
Proof.
  intros Hp Hd. unfold os.write_text.
  rewrite (isdir_not_isfile _ _ Hp), Hp, Hd. by rewrite !andb_false_r.
Qed.

Lemma publishable_inv fs :
  publishable fs = true ->
  os.path_isdir fs "./app" = true /\
  os.path_isfile fs "./prometheus" = false /\
  os.path_isfile fs config_dir = false /\
  os.path_isdir fs output_path = false /\
  os.path_isdir fs dest_path = false.
Proof.
  unfold publishable. rewrite !andb_true_iff, !negb_true_iff. tauto.
Qed.

(** Publishing on a publishable file system succeeds and leaves
    [published]. *)
Lemma save_config_publishable targets st :
  publishable (files st) = true ->
  exists l,
    PrometheusConfigGenerator.save_config targets output_path config_dir st =
    (Ok tt, {| config := config st;
               files := published (Json.dumps (JArr targets)) (files st);
               logs := logs st ++ l |}).
Proof.
  intros (Happ & Hp & Hc & Ho & Hd)%publishable_inv.
  set (text := Json.dumps (JArr targets)).
  set (fs1 := ensure_dir config_dir (ensure_dir "./prometheus" (files st))).
  assert (Hw : os.write_text output_path text fs1 = (Ok tt, <[output_path := File text]> fs1)).
  { apply write_text_ok.
    - change (os.path_dirname output_path) with "./app". unfold fs1.
      by rewrite !path_isdir_ensure_dir_ne.
    - unfold fs1. by rewrite !path_isdir_ensure_dir_ne. }
  set (fs2 := <[output_path := File text]> fs1) in *.
  assert (Hcopy : shutil.copy output_path dest_path fs2
                  = (Ok dest_path, <[dest_path := File text]> fs2)).
  { unfold shutil.copy.
    assert (Hdd : os.path_isdir fs2 dest_path = false).
    { unfold fs2, fs1. rewrite path_isdir_insert_ne by done.
      by rewrite !path_isdir_ensure_dir_ne. }
    rewrite Hdd. change (String.eqb output_path dest_path) with false. cbv iota.
    rewrite andb_false_l.
    assert (Hsrc : fs2 !! output_path = Some (File text)) by apply lookup_insert_eq.
    unfold os.path_isdir at 1. rewrite Hsrc.
    change (String.eqb output_path ".") with false. cbv iota. rewrite orb_false_l.
    rewrite write_text_ok; [done| |done].
    change (os.path_dirname dest_path) with config_dir.
    unfold fs2. rewrite path_isdir_insert_ne by done. apply path_isdir_ensure_dir. }
  unfold PrometheusConfigGenerator.save_config, try_except, mbind, M_bind, on_files, log.
  simpl. rewrite makedirs_config_dir by done. fold fs1. simpl.
  fold text. rewrite Hw. simpl. fold dest_path. rewrite Hcopy. simpl.
  exists [(INFO, ConfigurationWritten output_path); (INFO, ConfigurationCopied dest_path)].
  unfold published. fold text fs1 fs2. by rewrite <- app_assoc.
Qed.

Lemma text_at_published_output text fs :
  text_at (published text fs) output_path = Some text.
Proof.
  unfold text_at, published. rewrite lookup_insert_ne by done.
  by rewrite lookup_insert_eq.
Qed.

Lemma text_at_published_dest text fs :
  text_at (published text fs) dest_path = Some text.
Proof. unfold text_at, published. by rewrite lookup_insert_eq. Qed.

Lemma write_text_inv path text fs fs' :
  os.write_text path text fs = (Ok tt, fs') -> fs' = <[path := File text]> fs.
Proof.
  unfold os.write_text.
  repeat match goal with
         | |- context [if ?b then _ else _] => destruct b
         end; congruence.
Qed.

Lemma copy_inv src dst text fs dst' fs' :
  fs !! src = Some (File text) ->
  shutil.copy src dst fs = (Ok dst', fs') ->
  fs' = <[dst' := File text]> fs /\
  (dst' = dst \/ dst' = os.path_join dst (os.path_basename src)).
Proof.
  intros Hsrc. unfold shutil.copy. rewrite Hsrc.
  set (d := if os.path_isdir fs dst then _ else _).
  assert (Hd : d = dst \/ d = os.path_join dst (os.path_basename src)).
  { unfold d. destruct (os.path_isdir fs dst); auto. }
  clearbody d.
  destruct (String.eqb src d && os.path_isfile fs src); [done|].
  destruct (os.path_isdir fs src); [done|].
  destruct (os.write_text d text fs) as [[[]|e] fs''] eqn:Hw; [|done].
  intros [= <- <-]. split; [|done]. by apply write_text_inv.
Qed.

(** Whenever publishing returns normally, the working file holds the
    serialized document. *)
Lemma save_config_written targets st st' :
  PrometheusConfigGenerator.save_config targets output_path config_dir st = (Ok tt, st') ->
  text_at (files st') output_path = Some (Json.dumps (JArr targets)).
Proof.
  unfold PrometheusConfigGenerator.save_config, try_except, mbind, M_bind, on_files, log,
    raise.
  simpl.
  destruct (os.makedirs config_dir (files st)) as [[[]|e] fs1]; simpl.
  2:{ by destruct (is_OSError e). }
  destruct (os.write_text output_path _ fs1) as [[[]|e] fs2] eqn:Hw; simpl.
  2:{ by destruct (is_OSError e). }
  apply write_text_inv in Hw.
  destruct (shutil.copy output_path _ fs2) as [[dst|e] fs3] eqn:Hc; simpl.
  2:{ by destruct (is_OSError e). }
  intros [= <-]. simpl.
  eapply copy_inv in Hc; [|by rewrite Hw, lookup_insert_eq].
  destruct Hc as [-> Hdst]. unfold text_at.
  rewrite lookup_insert_ne.
  - by rewrite Hw, lookup_insert_eq.
  - destruct Hdst as [-> | ->]; done.
Qed.

Lemma publishable_published text fs :
  publishable fs = true -> publishable (published text fs) = true.
Proof.
  intros (Happ & Hp & Hc & Ho & Hd)%publishable_inv.
  unfold publishable, published.
  rewrite !andb_true_iff, !negb_true_iff. repeat split.
  - rewrite !path_isdir_insert_ne by done. by rewrite !path_isdir_ensure_dir_ne.
  - apply isdir_not_isfile. rewrite !path_isdir_insert_ne by done.
    rewrite path_isdir_ensure_dir_ne by done. apply path_isdir_ensure_dir.
  - apply isdir_not_isfile. rewrite !path_isdir_insert_ne by done.
    apply path_isdir_ensure_dir.
  - rewrite path_isdir_insert_ne by done. unfold os.path_isdir.
    by rewrite lookup_insert_eq.
  - unfold os.path_isdir. by rewrite lookup_insert_eq.
Qed.

Lemma ensure_dir_id fs d : os.path_isdir fs d = true -> ensure_dir d fs = fs.
Proof. intros H. unfold ensure_dir. by rewrite H. Qed.

(** Publishing the same text again changes nothing. *)
Lemma published_idempotent text fs :
  published text (published text fs) = published text fs.
Proof.
  unfold published at 1.
  rewrite (ensure_dir_id _ "./prometheus").
  2:{ unfold published. rewrite !path_isdir_insert_ne by done.
      rewrite path_isdir_ensure_dir_ne by done. apply path_isdir_ensure_dir. }
  rewrite (ensure_dir_id _ config_dir).
  2:{ unfold published. rewrite !path_isdir_insert_ne by done.
      apply path_isdir_ensure_dir. }
  rewrite (insert_id (published text fs) output_path).
  2:{ unfold published. rewrite lookup_insert_ne by done. apply lookup_insert_eq. }
  apply insert_id. unfold published. apply lookup_insert_eq.
Qed.

End Publish.

Section Generator.

Import PrometheusConfigGenerator.

Variable service_name : json.

Lemma target_of_ok instance :
  has_ip_and_port instance = true ->
  exists t, target_of instance service_name = Ok t /\ service_label t = Some service_name.
Proof.
  unfold has_ip_and_port, has_field, target_of, address, Py.getitem.
  destruct instance; try done.
  destruct (Py.dict_lookup "ip" fields) as [ip|]; [|done].
  destruct (Py.dict_lookup "port" fields) as [port|]; [|done].
  intros _. eexists. split; [reflexivity|done].
Qed.

Lemma target_of_missing instance :
  is_record instance = true ->
  has_ip_and_port instance = false ->
  exists key, (key = "ip" \/ key = "port") /\
              target_of instance service_name = Raise (KeyError key).
Proof.
  unfold has_ip_and_port, has_field, target_of, address, Py.getitem.
  destruct instance; try done. intros _.
  destruct (Py.dict_lookup "ip" fields) as [ip|]; simpl.
  - destruct (Py.dict_lookup "port" fields) as [port|]; [done|].
    intros _. exists "port". auto.
  - intros _. exists "ip". auto.
Qed.

Lemma target_of_label instance t :
  target_of instance service_name = Ok t -> service_label t = Some service_name.
Proof.
  unfold target_of. destruct (address instance) as [a|e]; simpl; [|done].
  by intros [= <-].
Qed.

Lemma append_targets_ok instances targets :
  Forall (fun i => has_ip_and_port i = true) instances ->
  exists ts,
    append_targets instances service_name targets = Ok (targets ++ ts) /\
    Forall2 (fun i t => target_of i service_name = Ok t) instances ts.
Proof.
  intros H. revert targets.
  induction H as [|instance rest Hi _ IH]; intros targets; simpl.
  - exists []. by rewrite app_nil_r.
  - destruct (target_of_ok instance Hi) as (t & Ht & _). rewrite Ht. simpl.
    destruct (IH (targets ++ [t])) as (ts & -> & Hts).
    exists (t :: ts). rewrite <- app_assoc. split; [done|]. by constructor.
Qed.

Lemma append_targets_missing instances targets :
  Forall (fun i => is_record i = true) instances ->
  Exists (fun i => has_ip_and_port i = false) instances ->
  exists key, (key = "ip" \/ key = "port") /\
              append_targets instances service_name targets = Raise (KeyError key).
Proof.
  intros Hrec Hex. revert targets.
  induction Hrec as [|instance rest Hi Hrest IH]; intros targets.
  - by apply Exists_nil in Hex.
  - simpl. destruct (has_ip_and_port instance) eqn:Hf.
    + destruct (target_of_ok instance Hf) as (t & -> & _). simpl.
      apply IH. apply Exists_cons in Hex as [Hex|Hex]; [congruence|done].
    + destruct (target_of_missing instance Hi Hf) as (key & Hk & ->).
      by exists key.
Qed.

Lemma append_targets_inv instances targets ts :
  append_targets instances service_name targets = Ok ts ->
  exists new,
    ts = targets ++ new /\
    length new = length instances /\
    Forall (fun t => service_label t = Some service_name) new.
Proof.
  revert targets. induction instances as [|instance rest IH]; intros targets; simpl.
  - intros [= <-]. exists []. by rewrite app_nil_r.
  - destruct (target_of instance service_name) as [t|e] eqn:Ht; simpl; [|done].
    intros (new & -> & Hlen & Hnew)%IH. exists (t :: new).
    rewrite <- app_assoc. split; [done|]. split; [simpl; lia|].
    constructor; [|done]. by eapply target_of_label.
Qed.

Lemma generate_target_config_labels instances ts :
  generate_target_config instances service_name = Ok ts ->
  Forall (fun t => service_label t = Some service_name) ts.
Proof.
  unfold generate_target_config. destruct (Py.iter instances) as [items|e]; simpl; [|done].
  intros (new & -> & _ & H)%append_targets_inv. done.
Qed.

Lemma generate_target_config_nil : generate_target_config (JArr []) service_name = Ok [].
Proof. reflexivity. Qed.

End Generator.

Section Collect.

Variables (reg : registry) (cfg : NacosConfig).

Lemma returned_collect_targets_nil all_targets :
  returned (collect_targets reg [] all_targets) cfg = Ok all_targets.
Proof. reflexivity. Qed.

Lemma returned_collect_targets_step name rest all_targets :
  returned (collect_targets reg (name :: rest) all_targets) cfg =
  targets ← service_targets reg cfg name;
  returned (collect_targets reg rest (all_targets ++ targets)) cfg.
Proof.
  rewrite returned_collect_targets_cons. unfold service_targets.
  by destruct (returned _ cfg) as [instances|e].
Qed.

(** The loop appends each service's targets, in listing order. *)
Lemma collect_targets_ok names tss all_targets :
  Forall2 (fun name ts => service_targets reg cfg name = Ok ts) names tss ->
  returned (collect_targets reg names all_targets) cfg = Ok (all_targets ++ concat tss).
Proof.
  intros H. revert all_targets.
  induction H as [|name ts rest tss Hts _ IH]; intros all_targets.
  - rewrite returned_collect_targets_nil. simpl. by rewrite app_nil_r.
  - rewrite returned_collect_targets_step, Hts. simpl.
    by rewrite IH, app_assoc.
Qed.

(** The loop stops at the first service whose targets cannot be built. *)
Lemma collect_targets_raises pre tss name post e all_targets :
  Forall2 (fun name ts => service_targets reg cfg name = Ok ts) pre tss ->
  service_targets reg cfg name = Raise e ->
  returned (collect_targets reg (pre ++ name :: post) all_targets) cfg = Raise e.
Proof.
  intros H He. revert all_targets.
  induction H as [|p ts rest tss Hts _ IH]; intros all_targets; simpl app.
  - by rewrite returned_collect_targets_step, He.
  - rewrite returned_collect_targets_step, Hts. simpl. apply IH.
Qed.

End Collect.

(** ** The claims *)

(** A cycle whose document is [doc] publishes it when the file system
    allows. *)
Lemma main_publishes env reg st doc :
  cycle_document env reg = Ok doc ->
  publishable (files st) = true ->
  (main env reg st).1 = Ok tt /\
  files (main env reg st).2 = published (Json.dumps (JArr doc)) (files st).
Proof.
  intros Hdoc Hfs. destruct (main_builds env reg st) as [l Hl]. simpl in Hl.
  rewrite Hdoc in Hl. rewrite Hl.
  edestruct save_config_publishable as [l' ->]; [exact Hfs|]. done.
Qed.

Lemma cycle_document_intro env reg services names doc :
  returned (NacosClient.authenticate reg) (NacosConfig_init env) = Ok tt ->
  returned (NacosClient.get_services reg) (session_config env reg) = Ok services ->
  Py.iter services = Ok names ->
  returned (collect_targets reg names []) (session_config env reg) = doc ->
  cycle_document env reg = doc.
Proof.
  intros Ha Hs Hn Hd. unfold cycle_document. rewrite Ha, Hs. simpl. rewrite Hn. done.
Qed.

(** C1. When the registry lists exactly [svc-a] and [svc-a] has exactly one
    instance, with ip 10.0.0.5 and port 8080, the cycle builds the
    one-element document [[target_a]] and writes its serialization to the
    working file and to the copy in the watched directory. *)
Theorem cycle_single_instance env reg st instance :
  returned (NacosClient.authenticate reg) (NacosConfig_init env) = Ok tt ->
  returned (NacosClient.get_services reg) (session_config env reg)
    = Ok (JArr [JStr "svc-a"]) ->
  returned (NacosClient.get_service_instances reg (JStr "svc-a")) (session_config env reg)
    = Ok (JArr [instance]) ->
  Py.getitem instance "ip" = Ok (JStr "10.0.0.5") ->
  Py.getitem instance "port" = Ok (JInt 8080) ->
  publishable (files st) = true ->
  cycle_document env reg = Ok [target_a] /\
  (main env reg st).1 = Ok tt /\
  text_at (files (main env reg st).2) output_path = Some (Json.dumps (JArr [target_a])) /\
  text_at (files (main env reg st).2) dest_path = Some (Json.dumps (JArr [target_a])).
Proof.
  intros Ha Hs Hi Hip Hport Hfs.
  assert (Hdoc : cycle_document env reg = Ok [target_a]).
  { eapply cycle_document_intro; [done..|].
    apply (collect_targets_ok _ _ _ [[target_a]]).
    constructor; [|constructor]. unfold service_targets. rewrite Hi.
    unfold mbind, result_bind, PrometheusConfigGenerator.generate_target_config, Py.iter,
      PrometheusConfigGenerator.append_targets, PrometheusConfigGenerator.target_of,
      PrometheusConfigGenerator.address.
    unfold mbind, result_bind. rewrite Hip, Hport. done. }
  split; [done|].
  destruct (main_publishes env reg st _ Hdoc Hfs) as [Hok ->].
  split; [done|].
  by rewrite text_at_published_output, text_at_published_dest.
Qed.

Lemma cycle_single_instance_witness :
  cycle_document ∅ registry_a = Ok [target_a] /\
  (main ∅ registry_a store_a).1 = Ok tt /\
  text_at (files (main ∅ registry_a store_a).2) output_path
    = Some (Json.dumps (JArr [target_a])) /\
  text_at (files (main ∅ registry_a store_a).2) dest_path
    = Some (Json.dumps (JArr [target_a])).
Proof.
  apply (cycle_single_instance ∅ registry_a store_a record_a); vm_compute; reflexivity.
Defined.

(** C2. [generate_target_config] builds one target per instance record
    that has an ip and a port, in order: as many targets as instances,
    whatever the records' other fields, and equal records give equal
    targets. *)
Theorem generate_target_config_one_per_instance service_name instances :
  Forall (fun i => has_ip_and_port i = true) instances ->
  exists targets,
    PrometheusConfigGenerator.generate_target_config (JArr instances) service_name
      = Ok targets /\
    length targets = length instances /\
    Forall2 (fun i t => PrometheusConfigGenerator.target_of i service_name = Ok t)
      instances targets.
Proof.
  intros H. unfold PrometheusConfigGenerator.generate_target_config. simpl.
  destruct (append_targets_ok service_name instances [] H) as (ts & -> & Hts).
  exists ts. split; [done|]. split; [|done].
  symmetry. by eapply Forall2_length.
Qed.

Lemma generate_target_config_one_per_instance_witness :
  exists targets,
    PrometheusConfigGenerator.generate_target_config (JArr [record_a; record_a]) (JStr "svc-a")
      = Ok targets /\
    length targets = 2%nat /\
    Forall2 (fun i t => PrometheusConfigGenerator.target_of i (JStr "svc-a") = Ok t)
      [record_a; record_a] targets.
Proof.
  apply (generate_target_config_one_per_instance (JStr "svc-a") [record_a; record_a]).
  repeat constructor.
Defined.

(** C4. When [authenticate] raises in a cycle, the cycle raises the same
    exception and the file system is as it was: nothing written, copied or
    created. *)
Theorem main_aborts_when_authenticate_raises env reg st e :
  (NacosClient.authenticate reg (fresh env st)).1 = Raise e ->
  (main env reg st).1 = Raise e /\ files (main env reg st).2 = files st.
Proof.
  intros H. apply main_raises. unfold cycle_document.
  destruct (authenticate_run reg (fresh env st)) as [l Hl].
  rewrite Hl in H. simpl in H. rewrite H. done.
Qed.

Lemma main_aborts_when_authenticate_raises_witness :
  (main ∅ registry_down store_a).1 = Raise TransportError /\
  files (main ∅ registry_down store_a).2 = files store_a.
Proof.
  apply (main_aborts_when_authenticate_raises ∅ registry_down store_a TransportError).
  vm_compute. reflexivity.
Defined.

Section Services.

Variables (reg : registry) (cfg : NacosConfig).

Lemma service_targets_labels name ts :
  service_targets reg cfg name = Ok ts ->
  Forall (fun t => service_label t = Some name) ts.
Proof.
  unfold service_targets. destruct (returned _ cfg) as [instances|e]; simpl; [|done].
  apply generate_target_config_labels.
Qed.

Lemma service_targets_failure name :
  transport_or_http_error (reg (instance_list_request cfg name)) = true ->
  service_targets reg cfg name = Ok [].
Proof.
  intros H. unfold service_targets. by rewrite get_service_instances_failure.
Qed.

(** Every target of the collected document was built for a listed
    service that has targets. *)
Lemma concat_targets_origin names tss t :
  Forall2 (fun name ts => service_targets reg cfg name = Ok ts) names tss ->
  t ∈ concat tss ->
  exists name ts,
    name ∈ names /\ service_targets reg cfg name = Ok ts /\ t ∈ ts /\
    service_label t = Some name.
Proof.
  induction 1 as [|name ts names tss Hts _ IH]; simpl.
  - by intros ?%elem_of_nil.
  - intros [Hin|Hin]%elem_of_app.
    + exists name, ts. split; [left|]. split; [done|]. split; [done|].
      pose proof (service_targets_labels name ts Hts) as Hl.
      rewrite Forall_forall in Hl. by apply Hl.
    + destruct (IH Hin) as (n & ts' & Hn & ?). exists n, ts'. split; [by right|done].
Qed.

End Services.

(** C3. When the instance lookup of one listed service fails with a
    transport or HTTP error, the lookup returns the empty list, the cycle
    goes on, and the published document is the targets of the other
    services, in listing order; none of its targets is labelled with the
    failing service. *)
Theorem cycle_skips_failing_service env reg st pre failing post tss :
  returned (NacosClient.authenticate reg) (NacosConfig_init env) = Ok tt ->
  returned (NacosClient.get_services reg) (session_config env reg)
    = Ok (JArr (pre ++ failing :: post)) ->
  transport_or_http_error (reg (instance_list_request (session_config env reg) failing))
    = true ->
  Forall2 (fun name ts => service_targets reg (session_config env reg) name = Ok ts)
    (pre ++ post) tss ->
  publishable (files st) = true ->
  returned (NacosClient.get_service_instances reg failing) (session_config env reg)
    = Ok (JArr []) /\
  (main env reg st).1 = Ok tt /\
  text_at (files (main env reg st).2) output_path = Some (Json.dumps (JArr (concat tss))) /\
  text_at (files (main env reg st).2) dest_path = Some (Json.dumps (JArr (concat tss))) /\
  Forall (fun t => exists name,
            name ∈ pre ++ post /\ name <> failing /\ service_label t = Some name)
    (concat tss).
Proof.
  intros Ha Hs Hfail Hothers Hfs.
  set (cfg := session_config env reg) in *.
  pose proof (service_targets_failure reg cfg failing Hfail) as Hnone.
  split; [by apply get_service_instances_failure|].
  assert (Hdoc : cycle_document env reg = Ok (concat tss)).
  { eapply cycle_document_intro; [done..|]. fold cfg.
    apply Forall2_app_inv_l in Hothers as (tss1 & tss2 & H1 & H2 & ->).
    rewrite (collect_targets_ok reg cfg _ (tss1 ++ [] :: tss2)).
    - by rewrite !concat_app.
    - apply Forall2_app; [done|]. by constructor. }
  destruct (main_publishes env reg st _ Hdoc Hfs) as [Hok ->].
  split; [done|].
  rewrite text_at_published_output, text_at_published_dest.
  split; [done|]. split; [done|].
  apply Forall_forall. intros t Ht.
  destruct (concat_targets_origin reg cfg _ _ t Hothers Ht) as (name & ts & Hn & Hts & Hin & Hl).
  exists name. split; [done|]. split; [|done].
  intros ->. rewrite Hnone in Hts. injection Hts as <-. by apply elem_of_nil in Hin.
Qed.

Lemma cycle_skips_failing_service_witness :
  returned (NacosClient.get_service_instances registry_abc (JStr "svc-b"))
    (session_config ∅ registry_abc) = Ok (JArr []) /\
  (main ∅ registry_abc store_a).1 = Ok tt /\
  text_at (files (main ∅ registry_abc store_a).2) output_path
    = Some (Json.dumps (JArr (concat [[target_a];
         [JObj [("targets", JArr [JStr "10.0.0.9:9100"]);
                ("labels", JObj [("instance", JStr "10.0.0.9:9100");
                                 ("job", JStr "nacos-discovery");
                                 ("service", JStr "svc-c")])]]]))).
Proof.
  edestruct (cycle_skips_failing_service ∅ registry_abc store_a
               [JStr "svc-a"] (JStr "svc-b") [JStr "svc-c"]) as (H1 & H2 & H3 & _);
    [ vm_compute; reflexivity
    | vm_compute; reflexivity
    | vm_compute; reflexivity
    | repeat constructor
    | vm_compute; reflexivity
    | ].
  split; [exact H1|]. split; [exact H2|]. exact H3.
Defined.

(** C5. On a list of instance records: when every record has an ip and a
    port, [generate_target_config] returns normally; when some record lacks
    one of them, it raises [KeyError] for that field, and a cycle that meets
    such a list raises that [KeyError] without touching the file system. *)
Theorem missing_field_aborts_cycle service_name instances :
  Forall (fun i => is_record i = true) instances ->
  (Forall (fun i => has_ip_and_port i = true) instances ->
   exists targets,
     PrometheusConfigGenerator.generate_target_config (JArr instances) service_name
       = Ok targets) /\
  (Exists (fun i => has_ip_and_port i = false) instances ->
   exists key,
     (key = "ip" \/ key = "port") /\
     PrometheusConfigGenerator.generate_target_config (JArr instances) service_name
       = Raise (KeyError key) /\
     forall env reg st pre post tss,
       returned (NacosClient.authenticate reg) (NacosConfig_init env) = Ok tt ->
       returned (NacosClient.get_services reg) (session_config env reg)
         = Ok (JArr (pre ++ service_name :: post)) ->
       Forall2 (fun name ts => service_targets reg (session_config env reg) name = Ok ts)
         pre tss ->
       returned (NacosClient.get_service_instances reg service_name)
         (session_config env reg) = Ok (JArr instances) ->
       (main env reg st).1 = Raise (KeyError key) /\
       files (main env reg st).2 = files st).
Proof.
  intros Hrec. split.
  - intros Hall. unfold PrometheusConfigGenerator.generate_target_config. simpl.
    destruct (append_targets_ok service_name instances [] Hall) as (ts & -> & _).
    by exists ts.
  - intros Hex.
    destruct (append_targets_missing service_name instances [] Hrec Hex) as (key & Hk & Hr).
    exists key. split; [done|]. split; [exact Hr|].
    intros env reg st pre post tss Ha Hs Hpre Hi.
    apply main_raises. eapply cycle_document_intro; [done..|].
    eapply collect_targets_raises; [done|].
    unfold service_targets. rewrite Hi. exact Hr.
Qed.

Lemma missing_field_aborts_cycle_witness :
  (main ∅ registry_malformed store_a).1 = Raise (KeyError "port") /\
  files (main ∅ registry_malformed store_a).2 = files store_a.
Proof.
  destruct (missing_field_aborts_cycle (JStr "svc-b") [record_a; record_without_port])
    as [_ H].
  { repeat constructor. }
  destruct H as (key & _ & Hgen & Hmain).
  { apply Exists_cons_tl, Exists_cons_hd. reflexivity. }
  injection Hgen as <-.
  apply (Hmain ∅ registry_malformed store_a [JStr "svc-a"] [] [[target_a]]).
  - vm_compute; reflexivity.
  - vm_compute; reflexivity.
  - repeat constructor.
  - vm_compute; reflexivity.
Defined.

(** C6, as the claim has it, fails: the login answers 200 with a body
    without [accessToken]; [authenticate] raises [ValueError] after it has
    stored [None] in the token field, which held the empty string. *)
Lemma authenticate_failure_overwrites_token :
  ~ (forall reg st e,
       token (config st) = JStr EmptyString ->
       (NacosClient.authenticate reg st).1 = Raise e ->
       token (config (NacosClient.authenticate reg st).2) = JStr EmptyString).
Proof.
  intros H.
  specialize (H registry_no_token store_a
                (ValueError "Failed to retrieve access token") eq_refl eq_refl).
  vm_compute in H. discriminate H.
Qed.

(** When [authenticate] raises the [ValueError] for a missing token, the
    login was answered with an accepted status and an object, and the token
    field has been overwritten with the falsy value received. *)
Lemma authenticate_value_error reg cfg :
  returned (NacosClient.authenticate reg) cfg
    = Raise (ValueError "Failed to retrieve access token") ->
  exists r fields,
    reg (login_request cfg) = Responds r /\
    ~ (400 <= status_code r < 600) /\
    content r = Some (JObj fields) /\
    Py.truthy (received_token fields) = false /\
    config_after (NacosClient.authenticate reg) cfg = set_token cfg (received_token fields).
Proof.
  unfold returned, config_after, NacosClient.authenticate, try_except, mbind, M_bind,
    get_config, lift, assign_token, raise, log, Session.post, Session.send,
    Session.raise_for_status, Session.json, login_request, Py.get, received_token.
  simpl.
  destruct (reg _) as [|r] eqn:Hr; simpl; [done|].
  destruct ((400 <=? status_code r) && (status_code r <? 600)) eqn:Hs; simpl; [done|].
  destruct (content r) as [body|] eqn:Hc; simpl; [|done].
  destruct body; simpl; try done.
  intros H. exists r, fields. split; [done|]. split; [lia|]. split; [done|].
  destruct (Py.dict_lookup "accessToken" fields) as [tok|]; simpl in *; [|done].
  destruct (Py.truthy tok) eqn:Ht; simpl in *; done.
Qed.

(** C6, amended. When [authenticate] raises, the files are untouched and
    the token field does not hold a usable token.  The configuration is
    unchanged unless the exception is the [ValueError] for a missing token;
    then the login was answered with an accepted status and an object
    whose [accessToken] is missing or falsy, and the token field has been
    overwritten with exactly the value received ([None] when the field is
    missing), the rest of the configuration being kept. *)
Theorem authenticate_failure_token reg st e :
  (NacosClient.authenticate reg st).1 = Raise e ->
  files (NacosClient.authenticate reg st).2 = files st /\
  (e <> ValueError "Failed to retrieve access token" ->
     config (NacosClient.authenticate reg st).2 = config st) /\
  (e = ValueError "Failed to retrieve access token" ->
     Py.truthy (token (config (NacosClient.authenticate reg st).2)) = false /\
     exists r fields,
       reg (login_request (config st)) = Responds r /\
       ~ (400 <= status_code r < 600) /\
       content r = Some (JObj fields) /\
       Py.truthy (received_token fields) = false /\
       config (NacosClient.authenticate reg st).2
         = set_token (config st) (received_token fields)) /\
  (Py.truthy (token (config st)) = false ->
     Py.truthy (token (config (NacosClient.authenticate reg st).2)) = false).
Proof.
  destruct (authenticate_run reg st) as [l ->]. simpl. intros H.
  destruct (authenticate_failure reg (config st) e H) as [Hkeep Hset].
  split; [done|]. split; [done|]. split.
  - intros ->. split; [by apply Hset|]. by apply authenticate_value_error.
  - intros Hfalsy.
    destruct (decide (e = ValueError "Failed to retrieve access token")) as [He|He].
    + by apply Hset.
    + by rewrite Hkeep.
Qed.

Lemma authenticate_failure_token_witness :
  (NacosClient.authenticate registry_no_token store_a).1
    = Raise (ValueError "Failed to retrieve access token") /\
  config (NacosClient.authenticate registry_no_token store_a).2
    = set_token (config store_a) JNull /\
  Py.truthy (token (config (NacosClient.authenticate registry_no_token store_a).2)) = false.
Proof.
  split; [vm_compute; reflexivity|].
  destruct (authenticate_failure_token registry_no_token store_a
              (ValueError "Failed to retrieve access token")) as (_ & _ & H & _).
  { vm_compute; reflexivity. }
  destruct (H eq_refl) as (Hfalsy & r & fields & Hr & _ & Hc & _ & Hcfg).
  split; [|exact Hfalsy].
  vm_compute in Hr. injection Hr as <-. simpl in Hc. injection Hc as <-.
  exact Hcfg.
Defined.

(** The outcome of a cycle is that of publishing its document. *)
Lemma main_outcome env reg st doc :
  cycle_document env reg = Ok doc ->
  exists st',
    files st' = files st /\
    (main env reg st).1
      = (PrometheusConfigGenerator.save_config doc output_path config_dir st').1 /\
    files (main env reg st).2
      = files (PrometheusConfigGenerator.save_config doc output_path config_dir st').2.
Proof.
  intros Hdoc. destruct (main_builds env reg st) as [l Hl]. simpl in Hl.
  rewrite Hdoc in Hl.
  exists {| config := session_config env reg; files := files st; logs := logs st ++ l |}.
  split; [done|]. rewrite Hl.
  by destruct (PrometheusConfigGenerator.save_config _ _ _ _) as [[[]|e] st''].
Qed.

(** C7. When authentication succeeds and the service listing returns the
    empty list, the cycle reaches the publishing step with the empty
    document: its outcome is the publisher's, and on a file system that
    allows publishing it returns normally with the text [[]] in the working
    file and in the copy. *)
Theorem cycle_publishes_empty_document env reg st :
  returned (NacosClient.authenticate reg) (NacosConfig_init env) = Ok tt ->
  returned (NacosClient.get_services reg) (session_config env reg) = Ok (JArr []) ->
  cycle_document env reg = Ok [] /\
  (exists st',
     files st' = files st /\
     (main env reg st).1
       = (PrometheusConfigGenerator.save_config [] output_path config_dir st').1) /\
  (publishable (files st) = true ->
   (main env reg st).1 = Ok tt /\
   text_at (files (main env reg st).2) output_path = Some "[]" /\
   text_at (files (main env reg st).2) dest_path = Some "[]").
Proof.
  intros Ha Hs.
  assert (Hdoc : cycle_document env reg = Ok []).
  { eapply cycle_document_intro; [done..|]. reflexivity. }
  split; [done|]. split.
  - destruct (main_outcome env reg st [] Hdoc) as (st' & Hf & Hr & _). by exists st'.
  - intros Hfs. destruct (main_publishes env reg st _ Hdoc Hfs) as [Hok ->].
    split; [done|].
    by rewrite text_at_published_output, text_at_published_dest.
Qed.

Lemma cycle_publishes_empty_document_witness :
  (main ∅ registry_empty store_a).1 = Ok tt /\
  text_at (files (main ∅ registry_empty store_a).2) output_path = Some "[]" /\
  text_at (files (main ∅ registry_empty store_a).2) dest_path = Some "[]".
Proof.
  destruct (cycle_publishes_empty_document ∅ registry_empty store_a) as (_ & _ & H);
    [vm_compute; reflexivity..|].
  apply H. vm_compute; reflexivity.
Defined.

(** A cycle that returns normally has built a document and written its
    serialization to the working file. *)
Lemma main_written env reg st :
  (main env reg st).1 = Ok tt ->
  exists doc,
    cycle_document env reg = Ok doc /\
    text_at (files (main env reg st).2) output_path = Some (Json.dumps (JArr doc)).
Proof.
  destruct (main_builds env reg st) as [l Hl]. simpl in Hl.
  destruct (cycle_document env reg) as [doc|e].
  - rewrite Hl.
    destruct (PrometheusConfigGenerator.save_config _ _ _ _) as [[[]|e] st''] eqn:Hs;
      [|done].
    intros _. exists doc. split; [done|]. simpl. by eapply save_config_written.
  - destruct Hl as [cfg ->]. done.
Qed.

(** C8. The text a cycle writes is the serialization of [cycle_document],
    which depends on the environment and the registry only: any two cycles
    that return normally, from whatever stores, write the same text; and on
    a file system that allows publishing, a second cycle run right after the
    first returns normally and leaves every file as the first left it. *)
Theorem cycle_deterministic env reg st :
  (main env reg st).1 = Ok tt ->
  exists doc,
    cycle_document env reg = Ok doc /\
    text_at (files (main env reg st).2) output_path = Some (Json.dumps (JArr doc)) /\
    (forall st',
       (main env reg st').1 = Ok tt ->
       text_at (files (main env reg st').2) output_path
         = text_at (files (main env reg st).2) output_path) /\
    (publishable (files st) = true ->
     (main env reg (main env reg st).2).1 = Ok tt /\
     files (main env reg (main env reg st).2).2 = files (main env reg st).2).
Proof.
  intros Hok. destruct (main_written env reg st Hok) as (doc & Hdoc & Htext).
  exists doc. split; [done|]. split; [done|]. split.
  - intros st' Hok'. destruct (main_written env reg st' Hok') as (doc' & Hdoc' & ->).
    rewrite Htext. congruence.
  - intros Hfs. destruct (main_publishes env reg st doc Hdoc Hfs) as [_ Hfiles].
    assert (Hfs' : publishable (files (main env reg st).2) = true).
    { rewrite Hfiles. by apply publishable_published. }
    destruct (main_publishes env reg _ doc Hdoc Hfs') as [Hok2 ->].
    split; [done|]. rewrite Hfiles. apply published_idempotent.
Qed.

Lemma cycle_deterministic_witness :
  exists doc,
    cycle_document ∅ registry_a = Ok doc /\
    text_at (files (main ∅ registry_a store_a).2) output_path
      = Some (Json.dumps (JArr doc)) /\
    (main ∅ registry_a (main ∅ registry_a store_a).2).1 = Ok tt /\
    files (main ∅ registry_a (main ∅ registry_a store_a).2).2
      = files (main ∅ registry_a store_a).2.
Proof.
  destruct (cycle_deterministic ∅ registry_a store_a) as (doc & Hdoc & Htext & _ & Hagain).
  { vm_compute; reflexivity. }
  exists doc. split; [exact Hdoc|]. split; [exact Htext|].
  apply Hagain. vm_compute; reflexivity.
Defined.

(** C9. An enumeration answered with a 2xx status and a JSON object that
    lacks the expected field ([doms] for services, [hosts] for instances)
    returns the empty list without raising, and so does the same call when
    the exchange fails with a transport or HTTP error. *)
Theorem enumeration_without_field_is_empty reg st r fields :
  200 <= status_code r < 300 ->
  content r = Some (JObj fields) ->
  (reg (service_list_request (config st)) = Responds r ->
   Py.dict_lookup "doms" fields = None ->
   (NacosClient.get_services reg st).1 = Ok (JArr []) /\
   forall reg',
     transport_or_http_error (reg' (service_list_request (config st))) = true ->
     (NacosClient.get_services reg' st).1 = (NacosClient.get_services reg st).1) /\
  (forall service_name,
   reg (instance_list_request (config st) service_name) = Responds r ->
   Py.dict_lookup "hosts" fields = None ->
   (NacosClient.get_service_instances reg service_name st).1 = Ok (JArr []) /\
   forall reg',
     transport_or_http_error (reg' (instance_list_request (config st) service_name))
       = true ->
     (NacosClient.get_service_instances reg' service_name st).1
       = (NacosClient.get_service_instances reg service_name st).1).
Proof.
  intros Hst Hbody. split.
  - intros Hreg Hmiss.
    assert (H : (NacosClient.get_services reg st).1 = Ok (JArr [])).
    { rewrite read_only_returned by apply get_services_read_only.
      by eapply get_services_missing_field. }
    split; [done|]. intros reg' Hfail. rewrite H.
    rewrite read_only_returned by apply get_services_read_only.
    by apply get_services_failure.
  - intros service_name Hreg Hmiss.
    assert (H : (NacosClient.get_service_instances reg service_name st).1 = Ok (JArr [])).
    { rewrite read_only_returned by apply get_service_instances_read_only.
      by eapply get_service_instances_missing_field. }
    split; [done|]. intros reg' Hfail. rewrite H.
    rewrite read_only_returned by apply get_service_instances_read_only.
    by apply get_service_instances_failure.
Qed.

Lemma enumeration_without_field_is_empty_witness :
  (NacosClient.get_services registry_bare store_a).1 = Ok (JArr []) /\
  (NacosClient.get_services registry_down store_a).1
    = (NacosClient.get_services registry_bare store_a).1 /\
  (NacosClient.get_service_instances registry_bare (JStr "svc-a") store_a).1 = Ok (JArr []) /\
  (NacosClient.get_service_instances registry_down (JStr "svc-a") store_a).1
    = (NacosClient.get_service_instances registry_bare (JStr "svc-a") store_a).1.
Proof.
  destruct (enumeration_without_field_is_empty registry_bare store_a
              {| status_code := 200; content := Some (JObj [("count", JInt 0)]) |}
              [("count", JInt 0)]) as [Hs Hi].
  { simpl. lia. }
  { reflexivity. }
  destruct Hs as [Hs1 Hs2]; [reflexivity..|].
  destruct (Hi (JStr "svc-a")) as [Hi1 Hi2]; [reflexivity..|].
  split; [exact Hs1|]. split; [apply Hs2; reflexivity|].
  split; [exact Hi1|]. apply Hi2; reflexivity.
Defined.

(** C10, as the claim has it, fails in the direction from success to a
    2xx status: a login answered 300 with a token makes [authenticate]
    return normally, since [raise_for_status] raises for 4xx and 5xx
    only. *)
Lemma authenticate_succeeds_outside_2xx :
  ~ (forall reg st,
       (NacosClient.authenticate reg st).1 = Ok tt <->
       exists r fields tok,
         reg (login_request (config st)) = Responds r /\
         200 <= status_code r < 300 /\
         content r = Some (JObj fields) /\
         Py.dict_lookup "accessToken" fields = Some tok /\
         Py.truthy tok = true).
Proof.
  intros H. destruct (H registry_300 store_a) as [Hl _].
  destruct Hl as (r & fields & tok & Hr & Hs & _); [reflexivity|].
  vm_compute in Hr. injection Hr as <-. simpl in Hs. lia.
Qed.

(** C10, amended. [authenticate] returns normally exactly when the login
    is answered with a status outside 400..599 and a JSON object whose
    [accessToken] is present and truthy; an [accessToken] that is present
    but falsy makes it raise [ValueError], as a missing one does. *)
Theorem authenticate_succeeds_iff_token reg st :
  ((NacosClient.authenticate reg st).1 = Ok tt <->
   exists r fields tok,
     reg (login_request (config st)) = Responds r /\
     ~ (400 <= status_code r < 600) /\
     content r = Some (JObj fields) /\
     Py.dict_lookup "accessToken" fields = Some tok /\
     Py.truthy tok = true) /\
  (forall r fields,
     reg (login_request (config st)) = Responds r ->
     ~ (400 <= status_code r < 600) ->
     content r = Some (JObj fields) ->
     match Py.dict_lookup "accessToken" fields with
     | Some tok => Py.truthy tok = false
     | None => True
     end ->
     (NacosClient.authenticate reg st).1
       = Raise (ValueError "Failed to retrieve access token")).
Proof.
  destruct (authenticate_run reg st) as [l ->]. simpl. split.
  - apply authenticate_succeeds_iff.
  - intros r fields Hr Hs Hc Ht.
    unfold returned, NacosClient.authenticate, try_except, mbind, M_bind, get_config, lift,
      assign_token, raise, log, Session.post, Session.send, Session.raise_for_status,
      Session.json, Py.get.
    unfold login_request in Hr. simpl. rewrite Hr. simpl.
    replace ((400 <=? status_code r) && (status_code r <? 600)) with false by lia.
    simpl. rewrite Hc. simpl.
    destruct (Py.dict_lookup "accessToken" fields) as [tok|]; simpl; [|done].
    by rewrite Ht.
Qed.

Lemma authenticate_succeeds_iff_token_witness :
  (NacosClient.authenticate registry_300 store_a).1 = Ok tt /\
  (NacosClient.authenticate registry_empty_token store_a).1
    = Raise (ValueError "Failed to retrieve access token").
Proof.
  split.
  - apply (authenticate_succeeds_iff_token registry_300 store_a).
    exists {| status_code := 300; content := Some (JObj [("accessToken", JStr "secret")]) |},
      [("accessToken", JStr "secret")], (JStr "secret").
    repeat split; try reflexivity. simpl. lia.
  - apply (proj2 (authenticate_succeeds_iff_token registry_empty_token store_a)
             {| status_code := 200;
                content := Some (JObj [("accessToken", JStr EmptyString)]) |}
             [("accessToken", JStr EmptyString)]); try reflexivity.
    simpl. lia.
Defined.

(** ** Further properties of the code *)

Ltac run_client :=
  unfold NacosClient.authenticate, NacosClient.get_services,
    NacosClient.get_service_instances, try_except, mbind, M_bind, get_config, lift,
    assign_token, raise, log, Session.post, Session.get, Session.send,
    Session.raise_for_status, Session.json, Py.get, login_request, service_list_request,
    instance_list_request, answers_object in *;
  simpl in *.

(** X2. What [authenticate] can raise: a transport error, an HTTP error
    for a 4xx or 5xx status, a JSON decoding error, [AttributeError] for a
    body that is not an object, or [ValueError] for a missing token.  Its
    own handler logs the first three, which are [RequestException]s, and
    nothing else: the last two leave the log as it was. *)
Theorem authenticate_exceptions reg st e :
  (NacosClient.authenticate reg st).1 = Raise e ->
  (e = TransportError \/ (exists s, e = HTTPError s /\ 400 <= s < 600)
   \/ e = JSONDecodeError \/ e = AttributeError
   \/ e = ValueError "Failed to retrieve access token") /\
  files (NacosClient.authenticate reg st).2 = files st /\
  logs (NacosClient.authenticate reg st).2 =
    if is_RequestException e then logs st ++ [(ERROR, AuthenticationFailed e)]
    else logs st.
Proof.
  run_client.
  destruct (reg _) as [|r]; simpl.
  { intros [= <-]. simpl. auto. }
  destruct ((400 <=? status_code r) && (status_code r <? 600)) eqn:Hs; simpl.
  { intros [= <-]. simpl. split; [|done]. right. left. exists (status_code r).
    split; [done|lia]. }
  destruct (content r) as [body|]; simpl; [|intros [= <-]; simpl; auto 6].
  destruct body; simpl; try (intros [= <-]; simpl; auto 6).
  destruct (Py.dict_lookup "accessToken" fields) as [tok|]; simpl.
  - destruct (Py.truthy tok); simpl; [done|]. intros [= <-]. simpl. auto 6.
  - intros [= <-]. simpl. auto 6.
Qed.

Lemma authenticate_exceptions_witness :
  logs (NacosClient.authenticate registry_down store_a).2
    = [(ERROR, AuthenticationFailed TransportError)] /\
  logs (NacosClient.authenticate registry_no_token store_a).2 = [].
Proof.
  split.
  - apply (authenticate_exceptions registry_down store_a TransportError). reflexivity.
  - apply (authenticate_exceptions registry_no_token store_a
             (ValueError "Failed to retrieve access token")).
    reflexivity.
Defined.

(** X3. A login answered with an object whose [accessToken] is truthy
    stores exactly that value in the configuration, logs the success and
    touches nothing else; the enumeration requests then carry it. *)
Theorem authenticate_stores_token reg st fields tok :
  answers_object reg (login_request (config st)) fields ->
  Py.dict_lookup "accessToken" fields = Some tok ->
  Py.truthy tok = true ->
  NacosClient.authenticate reg st =
    (Ok tt, {| config := set_token (config st) tok;
               files := files st;
               logs := logs st ++ [(INFO, Authenticated)] |}) /\
  Py.dict_lookup "accessToken"
    (params (service_list_request (config (NacosClient.authenticate reg st).2))) = Some tok /\
  forall service_name,
    Py.dict_lookup "accessToken"
      (params (instance_list_request (config (NacosClient.authenticate reg st).2)
                 service_name)) = Some tok.
Proof.
  intros (r & Hr & Hs & Hc) Hf Ht.
  assert (H : NacosClient.authenticate reg st =
              (Ok tt, {| config := set_token (config st) tok; files := files st;
                         logs := logs st ++ [(INFO, Authenticated)] |})).
  { run_client. rewrite Hr. simpl.
    replace ((400 <=? status_code r) && (status_code r <? 600)) with false by lia.
    simpl. rewrite Hc. simpl. rewrite Hf. simpl. by rewrite Ht. }
  rewrite H. done.
Qed.

Lemma authenticate_stores_token_witness :
  NacosClient.authenticate registry_a store_a =
    (Ok tt, {| config := set_token (config store_a) (JStr "secret");
               files := files store_a;
               logs := [(INFO, Authenticated)] |}).
Proof.
  apply (authenticate_stores_token registry_a store_a [("accessToken", JStr "secret")]
           (JStr "secret")); [|reflexivity..].
  eexists. split; [reflexivity|]. split; [simpl; lia|reflexivity].
Defined.

(** X4. [get_services] consults the registry once, for page 1 of at most
    100 services of the configured namespace and group, with the stored
    token: registries that answer this request alike give the same run. *)
Theorem get_services_single_request reg reg' st :
  reg (service_list_request (config st)) = reg' (service_list_request (config st)) ->
  NacosClient.get_services reg st = NacosClient.get_services reg' st.
Proof. intros H. run_client. by rewrite H. Qed.

Lemma get_services_single_request_witness :
  NacosClient.get_services registry_a store_a
    = NacosClient.get_services
        (registry_of NoResponse (lists [JStr "svc-a"]) (fun _ => NoResponse)) store_a.
Proof.
  apply (get_services_single_request registry_a
           (registry_of NoResponse (lists [JStr "svc-a"]) (fun _ => NoResponse)) store_a).
  reflexivity.
Defined.

(** X5. [get_service_instances] consults the registry once, for the
    instances of the named service in the configured namespace and group,
    healthy or not, with the stored token. *)
Theorem get_service_instances_single_request reg reg' service_name st :
  reg (instance_list_request (config st) service_name)
    = reg' (instance_list_request (config st) service_name) ->
  NacosClient.get_service_instances reg service_name st
    = NacosClient.get_service_instances reg' service_name st.
Proof. intros H. run_client. by rewrite H. Qed.

Lemma get_service_instances_single_request_witness :
  NacosClient.get_service_instances registry_abc (JStr "svc-a") store_a
    = NacosClient.get_service_instances registry_a (JStr "svc-a") store_a.
Proof.
  apply (get_service_instances_single_request registry_abc registry_a (JStr "svc-a") store_a).
  reflexivity.
Defined.

(** X6. When the listing is answered with an object that has [doms],
    [get_services] returns that value as it is and logs its length if it is
    a list, a string or an object; for any other value ([null], a number, a
    boolean) it raises [TypeError], uncaught and unlogged. *)
Theorem get_services_returns_doms reg st fields doms :
  answers_object reg (service_list_request (config st)) fields ->
  Py.dict_lookup "doms" fields = Some doms ->
  match Py.len doms with
  | Ok n => NacosClient.get_services reg st
            = (Ok doms, add_logs st [(INFO, RetrievedServices n)])
  | Raise _ => sized doms = false /\
               NacosClient.get_services reg st = (Raise TypeError, st)
  end.
Proof.
  intros (r & Hr & Hs & Hc) Hf. run_client. rewrite Hr. simpl.
  replace ((400 <=? status_code r) && (status_code r <? 600)) with false by lia.
  simpl. rewrite Hc. simpl. rewrite Hf. simpl.
  destruct doms; simpl; try done; by destruct st.
Qed.

Lemma get_services_returns_doms_witness :
  NacosClient.get_services (registry_of grants_token (ok (JObj [("doms", JNull)]))
                              (fun _ => hosts [])) store_a
    = (Raise TypeError, store_a).
Proof.
  apply (get_services_returns_doms
           (registry_of grants_token (ok (JObj [("doms", JNull)])) (fun _ => hosts []))
           store_a [("doms", JNull)] JNull); [|reflexivity].
  eexists. split; [reflexivity|]. split; [simpl; lia|reflexivity].
Defined.

(** X7. When the lookup is answered with an object that has [hosts],
    [get_service_instances] returns every record of it, in order and
    whatever its health, and logs their number. *)
Theorem get_service_instances_returns_hosts reg service_name st fields records :
  answers_object reg (instance_list_request (config st) service_name) fields ->
  Py.dict_lookup "hosts" fields = Some (JArr records) ->
  NacosClient.get_service_instances reg service_name st
    = (Ok (JArr records),
       add_logs st [(INFO, RetrievedInstances (length records) service_name)]).
Proof.
  intros (r & Hr & Hs & Hc) Hf. run_client. rewrite Hr. simpl.
  replace ((400 <=? status_code r) && (status_code r <? 600)) with false by lia.
  simpl. rewrite Hc. simpl. rewrite Hf. done.
Qed.

Lemma get_service_instances_returns_hosts_witness :
  NacosClient.get_service_instances registry_a (JStr "svc-a") store_a
    = (Ok (JArr [record_a]),
       add_logs store_a [(INFO, RetrievedInstances 1 (JStr "svc-a"))]).
Proof.
  apply (get_service_instances_returns_hosts registry_a (JStr "svc-a") store_a
           [("hosts", JArr [record_a])] [record_a]); [|reflexivity].
  eexists. split; [reflexivity|]. split; [simpl; lia|reflexivity].
Defined.

(** X8. The enumeration calls never change the configuration or the
    files, and they never let a [RequestException] out: when one raises, it
    is [AttributeError] (the body is not an object) or [TypeError] (the
    field's value has no length). *)
Theorem enumerations_contain_request_errors reg service_name st :
  config (NacosClient.get_services reg st).2 = config st /\
  files (NacosClient.get_services reg st).2 = files st /\
  config (NacosClient.get_service_instances reg service_name st).2 = config st /\
  files (NacosClient.get_service_instances reg service_name st).2 = files st /\
  (forall e, (NacosClient.get_services reg st).1 = Raise e ->
             e = AttributeError \/ e = TypeError) /\
  (forall e, (NacosClient.get_service_instances reg service_name st).1 = Raise e ->
             e = AttributeError \/ e = TypeError).
Proof.
  run_client.
  assert (Hlen : forall v e, Py.len v = Raise e -> e = TypeError).
  { intros v e. destruct v; simpl; congruence. }
  split_and!; try intros e.
  all: destruct (reg _) as [|r]; simpl; try done.
  all: destruct ((400 <=? status_code r) && (status_code r <? 600)); simpl; try done.
  all: destruct (content r) as [body|]; simpl; try done.
  all: destruct body; simpl; try done; try (intros [= <-]; by left).
  all: destruct (Py.dict_lookup _ fields) as [v|]; simpl; try done.
  all: destruct (Py.len v) as [n|e'] eqn:Hv; simpl; try done.
  all: rewrite (Hlen v e' Hv); simpl; try done.
  all: intros [= <-]; by right.
Qed.

Lemma append_targets_from_nil instances service_name targets :
  PrometheusConfigGenerator.append_targets instances service_name targets =
  ts ← PrometheusConfigGenerator.append_targets instances service_name [];
  mret (targets ++ ts).
Proof.
  revert targets. induction instances as [|i rest IH]; intros targets; simpl.
  - by rewrite app_nil_r.
  - destruct (PrometheusConfigGenerator.target_of i service_name) as [t|e]; simpl; [|done].
    rewrite (IH (targets ++ [t])), (IH [t]).
    destruct (PrometheusConfigGenerator.append_targets rest service_name []); simpl; [|done].
    by rewrite <- app_assoc.
Qed.

Lemma append_targets_app l1 l2 service_name targets :
  PrometheusConfigGenerator.append_targets (l1 ++ l2) service_name targets =
  ts ← PrometheusConfigGenerator.append_targets l1 service_name targets;
  PrometheusConfigGenerator.append_targets l2 service_name ts.
Proof.
  revert targets. induction l1 as [|i rest IH]; intros targets; simpl; [done|].
  destruct (PrometheusConfigGenerator.target_of i service_name) as [t|e]; simpl; [|done].
  apply IH.
Qed.

Lemma append_targets_built instances service_name targets ts :
  PrometheusConfigGenerator.append_targets instances service_name targets = Ok ts ->
  exists new,
    ts = targets ++ new /\
    Forall2 (fun i t => PrometheusConfigGenerator.target_of i service_name = Ok t)
      instances new.
Proof.
  revert targets. induction instances as [|i rest IH]; intros targets; simpl.
  - intros [= <-]. exists []. by rewrite app_nil_r.
  - destruct (PrometheusConfigGenerator.target_of i service_name) as [t|e] eqn:Ht;
      simpl; [|done].
    intros (new & -> & Hnew)%IH. exists (t :: new). rewrite <- app_assoc.
    split; [done|]. by constructor.
Qed.

(** X9. Every target [generate_target_config] returns has the shape the
    scraper expects: its one address is the instance's ip and port as
    printed by [str], joined by a colon; the [instance] label repeats it,
    the [job] label is [nacos-discovery] and the [service] label is the
    name given. *)
Theorem generated_target_shape instances service_name targets :
  PrometheusConfigGenerator.generate_target_config (JArr instances) service_name
    = Ok targets ->
  Forall2 (fun i t =>
             exists ip port,
               Py.getitem i "ip" = Ok ip /\ Py.getitem i "port" = Ok port /\
               t = JObj [("targets", JArr [JStr (Py.str ip +:+ ":" +:+ Py.str port)]);
                         ("labels",
                          JObj [("instance", JStr (Py.str ip +:+ ":" +:+ Py.str port));
                                ("job", JStr "nacos-discovery");
                                ("service", service_name)])])
    instances targets.
Proof.
  unfold PrometheusConfigGenerator.generate_target_config. simpl.
  intros (new & -> & H)%append_targets_built. simpl.
  eapply Forall2_impl; [exact H|]. intros i t. simpl.
  unfold PrometheusConfigGenerator.target_of, PrometheusConfigGenerator.address.
  destruct (Py.getitem i "ip") as [ip|]; simpl; [|done].
  destruct (Py.getitem i "port") as [port|]; simpl; [|done].
  intros [= <-]. by exists ip, port.
Qed.

Lemma generated_target_shape_witness :
  Forall2 (fun i t =>
             exists ip port,
               Py.getitem i "ip" = Ok ip /\ Py.getitem i "port" = Ok port /\
               t = JObj [("targets", JArr [JStr (Py.str ip +:+ ":" +:+ Py.str port)]);
                         ("labels",
                          JObj [("instance", JStr (Py.str ip +:+ ":" +:+ Py.str port));
                                ("job", JStr "nacos-discovery");
                                ("service", JStr "svc-a")])])
    [record_a] [target_a].
Proof.
  apply (generated_target_shape [record_a] (JStr "svc-a") [target_a]). reflexivity.
Defined.

(** X10. [generate_target_config] works record by record: on a list made
    of two parts it gives the targets of the first part followed by those
    of the second, and it raises what the first failing part raises. *)
Theorem generate_target_config_app l1 l2 service_name :
  PrometheusConfigGenerator.generate_target_config (JArr (l1 ++ l2)) service_name =
  ts1 ← PrometheusConfigGenerator.generate_target_config (JArr l1) service_name;
  ts2 ← PrometheusConfigGenerator.generate_target_config (JArr l2) service_name;
  mret (ts1 ++ ts2).
Proof.
  unfold PrometheusConfigGenerator.generate_target_config. simpl.
  rewrite append_targets_app.
  destruct (PrometheusConfigGenerator.append_targets l1 service_name []) as [ts1|e];
    simpl; [|done].
  apply append_targets_from_nil.
Qed.

(** X11. After records that have an ip and a port, the first other
    element decides the exception: [TypeError] when it is not an object,
    [KeyError] for [ip] when it has no ip (whether or not it has a port),
    [KeyError] for [port] when only the port is missing.  What follows it is
    not looked at. *)
Theorem generate_target_config_first_failure good bad rest service_name :
  Forall (fun i => has_ip_and_port i = true) good ->
  has_ip_and_port bad = false ->
  PrometheusConfigGenerator.generate_target_config (JArr (good ++ bad :: rest)) service_name
  = Raise (if negb (is_record bad) then TypeError
           else if negb (has_field "ip" bad) then KeyError "ip"
           else KeyError "port").
Proof.
  intros Hgood Hbad.
  unfold PrometheusConfigGenerator.generate_target_config. simpl.
  rewrite append_targets_app.
  destruct (append_targets_ok service_name good [] Hgood) as (ts & -> & _). simpl.
  unfold PrometheusConfigGenerator.target_of, PrometheusConfigGenerator.address, Py.getitem.
  unfold has_ip_and_port, has_field in *.
  destruct bad; simpl; try done.
  destruct (Py.dict_lookup "ip" fields); simpl; [|done].
  destruct (Py.dict_lookup "port" fields); simpl; done.
Qed.

Lemma generate_target_config_first_failure_witness :
  PrometheusConfigGenerator.generate_target_config
    (JArr ([record_a] ++ JObj [] :: [JNull])) (JStr "svc-a") = Raise (KeyError "ip") /\
  PrometheusConfigGenerator.generate_target_config
    (JArr ([record_a] ++ JStr "10.0.0.5:8080" :: [])) (JStr "svc-a") = Raise TypeError.
Proof.
  split.
  - apply (generate_target_config_first_failure [record_a] (JObj []) [JNull] (JStr "svc-a"));
      [repeat constructor|reflexivity].
  - apply (generate_target_config_first_failure [record_a] (JStr "10.0.0.5:8080") []
             (JStr "svc-a")); [repeat constructor|reflexivity].
Defined.

(** *** The file operations: what they leave and what they raise *)

Lemma makedirs_along_frame ds fs p :
  p ∉ ds -> (os.makedirs_along ds fs).2 !! p = fs !! p.
Proof.
  revert fs. induction ds as [|d rest IH]; intros fs Hp; simpl; [done|].
  apply not_elem_of_cons in Hp as [Hne Hp].
  destruct (os.path_isdir fs d); [by apply IH|].
  destruct (os.path_isfile fs d); [done|].
  rewrite IH by done. by rewrite lookup_insert_ne.
Qed.

Lemma makedirs_along_raises ds fs e :
  (os.makedirs_along ds fs).1 = Raise e -> is_OSError e = true.
Proof.
  revert fs. induction ds as [|d rest IH]; intros fs; simpl; [done|].
  destruct (os.path_isdir fs d); [apply IH|].
  destruct (os.path_isfile fs d); [|apply IH].
  simpl. by intros [= <-].
Qed.

Lemma write_text_frame path text fs p :
  p <> path -> (os.write_text path text fs).2 !! p = fs !! p.
Proof.
  intros Hp. unfold os.write_text.
  repeat match goal with
         | |- context [if ?b then _ else _] => destruct b
         end; simpl; try done.
  by rewrite lookup_insert_ne.
Qed.

Lemma write_text_raises path text fs e :
  (os.write_text path text fs).1 = Raise e -> is_OSError e = true.
Proof.
  unfold os.write_text.
  repeat match goal with
         | |- context [if ?b then _ else _] => destruct b
         end; simpl; try done; by intros [= <-].
Qed.

Lemma copy_frame src dst fs p :
  p <> dst -> p <> os.path_join dst (os.path_basename src) ->
  (shutil.copy src dst fs).2 !! p = fs !! p.
Proof.
  intros H1 H2. unfold shutil.copy.
  set (d := if os.path_isdir fs dst then _ else _).
  assert (Hd : p <> d) by (unfold d; by destruct (os.path_isdir fs dst)).
  clearbody d.
  destruct (String.eqb src d && os.path_isfile fs src); [done|].
  destruct (os.path_isdir fs src); [done|].
  destruct (fs !! src) as [[|text]|]; try done.
  pose proof (write_text_frame d text fs p Hd) as Hw.
  by destruct (os.write_text d text fs) as [[[]|e] fs'].
Qed.

Lemma copy_raises src dst fs e :
  (shutil.copy src dst fs).1 = Raise e -> is_OSError e = true.
Proof.
  unfold shutil.copy.
  set (d := if os.path_isdir fs dst then _ else _). clearbody d.
  destruct (String.eqb src d && os.path_isfile fs src); [by intros [= <-]|].
  destruct (os.path_isdir fs src); [by intros [= <-]|].
  destruct (fs !! src) as [[|text]|]; try by intros [= <-].
  pose proof (write_text_raises d text fs) as Hw.
  destruct (os.write_text d text fs) as [[[]|e'] fs']; simpl in *; [done|].
  intros [= <-]. by apply Hw.
Qed.

Ltac run_save_config :=
  unfold PrometheusConfigGenerator.save_config, try_except, mbind, M_bind, on_files, log,
    raise; simpl.

(** A run of [save_config], step by step. *)
Lemma save_config_steps targets st :
  let text := Json.dumps (JArr targets) in
  let m := os.makedirs config_dir (files st) in
  let w := os.write_text output_path text m.2 in
  let c := shutil.copy output_path dest_path w.2 in
  PrometheusConfigGenerator.save_config targets output_path config_dir st =
  match m.1 with
  | Raise e => (Raise e, {| config := config st; files := m.2;
                            logs := logs st ++ [(ERROR, SaveFailed e)] |})
  | Ok _ =>
      match w.1 with
      | Raise e => (Raise e, {| config := config st; files := w.2;
                                logs := logs st ++ [(ERROR, SaveFailed e)] |})
      | Ok _ =>
          match c.1 with
          | Raise e =>
              (Raise e, {| config := config st; files := c.2;
                           logs := logs st ++ [(INFO, ConfigurationWritten output_path);
                                               (ERROR, SaveFailed e)] |})
          | Ok _ =>
              (Ok tt, {| config := config st; files := c.2;
                         logs := logs st ++ [(INFO, ConfigurationWritten output_path);
                                             (INFO, ConfigurationCopied dest_path)] |})
          end
      end
  end.
Proof.
  run_save_config. fold dest_path.
  pose proof (makedirs_along_raises (os.ancestors EmptyString config_dir) (files st)) as Hm.
  fold (os.makedirs config_dir (files st)) in Hm.
  destruct (os.makedirs config_dir (files st)) as [[[]|e] fs1]; simpl in *.
  2:{ by rewrite (Hm e eq_refl). }
  pose proof (write_text_raises output_path (Json.dumps (JArr targets)) fs1) as Hw.
  destruct (os.write_text output_path _ fs1) as [[[]|e] fs2]; simpl in *.
  2:{ by rewrite (Hw e eq_refl). }
  pose proof (copy_raises output_path dest_path fs2) as Hc.
  destruct (shutil.copy output_path dest_path fs2) as [[d|e] fs3]; simpl in *.
  2:{ rewrite (Hc e eq_refl). by rewrite <- app_assoc. }
  by rewrite <- app_assoc.
Qed.

(** X12. On a file system that allows publishing, [save_config] returns
    normally; afterwards the watched directory exists, whether or not it
    did before, and the working file and its copy both hold the serialized
    targets.  The configuration is not touched. *)
Theorem save_config_creates_watched_directory targets st :
  publishable (files st) = true ->
  (PrometheusConfigGenerator.save_config targets output_path config_dir st).1 = Ok tt /\
  os.path_isdir
    (files (PrometheusConfigGenerator.save_config targets output_path config_dir st).2)
    config_dir = true /\
  text_at (files (PrometheusConfigGenerator.save_config targets output_path config_dir st).2)
    output_path = Some (Json.dumps (JArr targets)) /\
  text_at (files (PrometheusConfigGenerator.save_config targets output_path config_dir st).2)
    dest_path = Some (Json.dumps (JArr targets)) /\
  config (PrometheusConfigGenerator.save_config targets output_path config_dir st).2
    = config st.
Proof.
  intros Hfs. destruct (save_config_publishable targets st Hfs) as [l ->]. simpl.
  split; [done|]. split.
  - unfold published. rewrite !path_isdir_insert_ne by done. apply path_isdir_ensure_dir.
  - by rewrite text_at_published_output, text_at_published_dest.
Qed.

Lemma save_config_creates_watched_directory_witness :
  os.path_isdir (files store_a) config_dir = false /\
  os.path_isdir
    (files (PrometheusConfigGenerator.save_config [target_a] output_path config_dir
              store_a).2)
    config_dir = true /\
  text_at (files (PrometheusConfigGenerator.save_config [target_a] output_path config_dir
                    store_a).2)
    dest_path = Some (Json.dumps (JArr [target_a])).
Proof.
  split; [reflexivity|].
  destruct (save_config_creates_watched_directory [target_a] store_a) as (_ & H1 & _ & H2 & _).
  { vm_compute; reflexivity. }
  split; [exact H1|exact H2].
Defined.

(** X13. [save_config] does not create the directory of the working file.
    When [./app] is missing it raises [FileNotFoundError] and logs it; by
    then it has created the watched directory, and it has written no
    file. *)
Theorem save_config_without_app_directory targets st :
  files st !! "./app" = None ->
  os.path_isfile (files st) "./prometheus" = false ->
  os.path_isfile (files st) config_dir = false ->
  PrometheusConfigGenerator.save_config targets output_path config_dir st =
  (Raise (OSError FileNotFoundError),
   {| config := config st;
      files := ensure_dir config_dir (ensure_dir "./prometheus" (files st));
      logs := logs st ++ [(ERROR, SaveFailed (OSError FileNotFoundError))] |}).
Proof.
  intros Happ Hp Hc. rewrite save_config_steps. simpl.
  rewrite makedirs_config_dir by done. simpl.
  unfold os.write_text. change (os.path_dirname output_path) with "./app".
  set (fs1 := ensure_dir config_dir (ensure_dir "./prometheus" (files st))).
  assert (H1 : os.path_isfile fs1 "./app" = false).
  { unfold fs1. rewrite !path_isfile_ensure_dir_ne by done.
    unfold os.path_isfile. by rewrite Happ. }
  assert (H2 : os.path_isdir fs1 "./app" = false).
  { unfold fs1. rewrite !path_isdir_ensure_dir_ne by done.
    unfold os.path_isdir. by rewrite Happ. }
  rewrite H1, H2. done.
Qed.

Lemma save_config_without_app_directory_witness :
  (PrometheusConfigGenerator.save_config [target_a] output_path config_dir
     (store_of (NacosConfig_init ∅))).1 = Raise (OSError FileNotFoundError) /\
  files (PrometheusConfigGenerator.save_config [target_a] output_path config_dir
           (store_of (NacosConfig_init ∅))).2
    = ensure_dir config_dir (ensure_dir "./prometheus" ∅).
Proof.
  rewrite (save_config_without_app_directory [target_a] (store_of (NacosConfig_init ∅)));
    [done|reflexivity..].
Defined.

Lemma publish_paths_canonical : forallb canonical publish_paths = true.
Proof. reflexivity. Qed.

(** X14. Among the paths spelled the way the program spells its own,
    [save_config], whatever its outcome, leaves every one alone except the
    watched directory and its parent, the working file, and the copy (which
    goes inside [dest_path] if that is a directory). *)
Theorem save_config_frame targets st p :
  canonical p = true ->
  p ∉ publish_paths ->
  files (PrometheusConfigGenerator.save_config targets output_path config_dir st).2 !! p
    = files st !! p.
Proof.
  intros _ Hp. unfold publish_paths in Hp.
  repeat apply not_elem_of_cons in Hp as [? Hp].
  rewrite save_config_steps. simpl.
  assert (Hm : (os.makedirs config_dir (files st)).2 !! p = files st !! p).
  { apply makedirs_along_frame. rewrite ancestors_config_dir.
    repeat (apply not_elem_of_cons; split; [done|]). apply not_elem_of_nil. }
  destruct (os.makedirs config_dir (files st)) as [[[]|e] fs1]; simpl in *; [|done].
  pose proof (write_text_frame output_path (Json.dumps (JArr targets)) fs1 p) as Hw.
  destruct (os.write_text output_path _ fs1) as [[[]|e] fs2]; simpl in *.
  2:{ rewrite Hw by done. done. }
  pose proof (copy_frame output_path dest_path fs2 p) as Hc.
  destruct (shutil.copy output_path dest_path fs2) as [[d|e] fs3]; simpl in *.
  all: rewrite Hc, Hw by done; done.
Qed.

Lemma save_config_frame_witness :
  files (PrometheusConfigGenerator.save_config [target_a] output_path config_dir
           store_a).2 !! "./app" = Some Dir.
Proof.
  rewrite (save_config_frame [target_a] store_a "./app"); [reflexivity..|].
  unfold publish_paths. repeat (apply not_elem_of_cons; split; [done|]).
  apply not_elem_of_nil.
Defined.

(** X15. [save_config] raises nothing but [OSError]s, and each is logged
    as a failure to save, in the last record of the log, before it is
    raised again; the configuration is not touched. *)
Theorem save_config_failure targets st e :
  (PrometheusConfigGenerator.save_config targets output_path config_dir st).1 = Raise e ->
  is_OSError e = true /\
  last (logs (PrometheusConfigGenerator.save_config targets output_path config_dir st).2)
    = Some (ERROR, SaveFailed e) /\
  config (PrometheusConfigGenerator.save_config targets output_path config_dir st).2
    = config st.
Proof.
  rewrite save_config_steps. simpl.
  pose proof (makedirs_along_raises (os.ancestors EmptyString config_dir) (files st)) as Hm.
  fold (os.makedirs config_dir (files st)) in Hm.
  destruct (os.makedirs config_dir (files st)) as [[[]|e1] fs1]; simpl in *.
  2:{ intros [= <-]. rewrite last_snoc. auto. }
  pose proof (write_text_raises output_path (Json.dumps (JArr targets)) fs1) as Hw.
  destruct (os.write_text output_path _ fs1) as [[[]|e2] fs2]; simpl in *.
  2:{ intros [= <-]. rewrite last_snoc. auto. }
  pose proof (copy_raises output_path dest_path fs2) as Hc.
  destruct (shutil.copy output_path dest_path fs2) as [[d|e3] fs3]; simpl in *; [done|].
  intros [= <-]. split; [auto|]. split; [|done].
  by rewrite last_app.
Qed.

Lemma save_config_failure_witness :
  is_OSError (OSError FileNotFoundError) = true /\
  last (logs (PrometheusConfigGenerator.save_config [] output_path config_dir
                (store_of (NacosConfig_init ∅))).2)
    = Some (ERROR, SaveFailed (OSError FileNotFoundError)).
Proof.
  destruct (save_config_failure [] (store_of (NacosConfig_init ∅))
              (OSError FileNotFoundError)) as (H1 & H2 & _).
  { vm_compute; reflexivity. }
  split; [exact H1|exact H2].
Defined.

Lemma save_config_raises targets st e :
  (PrometheusConfigGenerator.save_config targets output_path config_dir st).1 = Raise e ->
  is_OSError e = true.
Proof.
  rewrite save_config_steps. simpl.
  pose proof (makedirs_along_raises (os.ancestors EmptyString config_dir) (files st)) as Hm.
  fold (os.makedirs config_dir (files st)) in Hm.
  destruct (os.makedirs config_dir (files st)) as [[[]|e1] fs1]; simpl in *.
  2:{ intros [= <-]. auto. }
  pose proof (write_text_raises output_path (Json.dumps (JArr targets)) fs1) as Hw.
  destruct (os.write_text output_path _ fs1) as [[[]|e2] fs2]; simpl in *.
  2:{ intros [= <-]. auto. }
  pose proof (copy_raises output_path dest_path fs2) as Hc.
  destruct (shutil.copy output_path dest_path fs2) as [[d|e3] fs3]; simpl in *; [done|].
  intros [= <-]. auto.
Qed.

Lemma save_config_logs targets st :
  exists l,
    logs (PrometheusConfigGenerator.save_config targets output_path config_dir st).2
      = logs st ++ l.
Proof.
  rewrite save_config_steps. simpl.
  destruct (os.makedirs config_dir (files st)) as [[[]|e1] fs1]; simpl; [|by eexists].
  destruct (os.write_text output_path _ fs1) as [[[]|e2] fs2]; simpl; [|by eexists].
  destruct (shutil.copy output_path dest_path fs2) as [[d|e3] fs3]; simpl; by eexists.
Qed.

(** X16. A cycle changes files only by publishing: when [main] raises
    anything that is not an [OSError], the file system is as it was. *)
Theorem main_changes_files_only_by_publishing env reg st e :
  (main env reg st).1 = Raise e ->
  is_OSError e = false ->
  files (main env reg st).2 = files st.
Proof.
  destruct (main_builds env reg st) as [l Hl]. simpl in Hl.
  destruct (cycle_document env reg) as [doc|e0].
  - rewrite Hl.
    pose proof (save_config_raises doc
                  {| config := session_config env reg; files := files st;
                     logs := logs st ++ l |}) as Hs.
    destruct (PrometheusConfigGenerator.save_config _ _ _ _) as [[[]|e1] st'']; [done|].
    simpl in *. intros [= <-] He. rewrite (Hs e1 eq_refl) in He. done.
  - destruct Hl as [cfg ->]. done.
Qed.

Lemma main_changes_files_only_by_publishing_witness :
  files (main ∅ registry_malformed store_a).2 = files store_a.
Proof.
  apply (main_changes_files_only_by_publishing ∅ registry_malformed store_a
           (KeyError "port")); vm_compute; reflexivity.
Defined.

(** X17. A service listing that fails with a transport or HTTP error
    after a successful login does not stop the cycle: it publishes the
    empty document, replacing whatever targets were published before. *)
Theorem failed_listing_publishes_empty_document env reg st :
  returned (NacosClient.authenticate reg) (NacosConfig_init env) = Ok tt ->
  transport_or_http_error (reg (service_list_request (session_config env reg))) = true ->
  publishable (files st) = true ->
  (main env reg st).1 = Ok tt /\
  text_at (files (main env reg st).2) output_path = Some "[]" /\
  text_at (files (main env reg st).2) dest_path = Some "[]".
Proof.
  intros Ha Hfail Hfs.
  assert (Hdoc : cycle_document env reg = Ok []).
  { eapply cycle_document_intro; [done|by apply get_services_failure|reflexivity..]. }
  destruct (main_publishes env reg st _ Hdoc Hfs) as [Hok ->].
  split; [done|]. by rewrite text_at_published_output, text_at_published_dest.
Qed.

Lemma failed_listing_publishes_empty_document_witness :
  text_at (files (main ∅ registry_a store_a).2) output_path
    = Some (Json.dumps (JArr [target_a])) /\
  text_at (files (main ∅ (registry_of grants_token (status 500) (fun _ => hosts [record_a]))
                    (main ∅ registry_a store_a).2).2) output_path = Some "[]".
Proof.
  split; [vm_compute; reflexivity|].
  apply (failed_listing_publishes_empty_document ∅
           (registry_of grants_token (status 500) (fun _ => hosts [record_a]))
           (main ∅ registry_a store_a).2); vm_compute; reflexivity.
Defined.

(** X18. Every cycle logs in again, from a configuration built anew: a
    cycle returns normally only if its own login succeeded, and the
    configuration object an earlier cycle left, with its token, has no
    effect on what [main] does. *)
Theorem main_authenticates_every_cycle env reg st :
  (main env reg st).1 = Ok tt ->
  returned (NacosClient.authenticate reg) (NacosConfig_init env) = Ok tt /\
  forall cfg,
    main env reg {| config := cfg; files := files st; logs := logs st |} = main env reg st.
Proof.
  intros Hok. split; [|done].
  destruct (main_builds env reg st) as [l Hl]. simpl in Hl.
  unfold cycle_document in Hl.
  destruct (returned (NacosClient.authenticate reg) (NacosConfig_init env)) as [[]|e];
    [done|].
  simpl in Hl. destruct Hl as [cfg Hl]. rewrite Hl in Hok. done.
Qed.

Lemma main_authenticates_every_cycle_witness :
  returned (NacosClient.authenticate registry_a) (NacosConfig_init ∅) = Ok tt /\
  main ∅ registry_a
    {| config := set_token (NacosConfig_init ∅) (JStr "stale");
       files := files store_a; logs := logs store_a |}
  = main ∅ registry_a store_a.
Proof.
  destruct (main_authenticates_every_cycle ∅ registry_a store_a) as [H1 H2].
  { vm_compute; reflexivity. }
  split; [exact H1|apply H2].
Defined.

(** X19. When every lookup goes through, the published document is the
    targets of the listed services, service after service in listing order;
    a service listed twice has its targets twice. *)
Theorem main_publishes_targets_in_listing_order env reg st services names tss :
  returned (NacosClient.authenticate reg) (NacosConfig_init env) = Ok tt ->
  returned (NacosClient.get_services reg) (session_config env reg) = Ok services ->
  Py.iter services = Ok names ->
  Forall2 (fun name ts => service_targets reg (session_config env reg) name = Ok ts)
    names tss ->
  publishable (files st) = true ->
  (main env reg st).1 = Ok tt /\
  text_at (files (main env reg st).2) output_path = Some (Json.dumps (JArr (concat tss))) /\
  text_at (files (main env reg st).2) dest_path = Some (Json.dumps (JArr (concat tss))).
Proof.
  intros Ha Hs Hn Hts Hfs.
  assert (Hdoc : cycle_document env reg = Ok (concat tss)).
  { eapply cycle_document_intro; [done..|]. by apply (collect_targets_ok _ _ _ tss). }
  destruct (main_publishes env reg st _ Hdoc Hfs) as [Hok ->].
  split; [done|]. by rewrite text_at_published_output, text_at_published_dest.
Qed.

Lemma main_publishes_targets_in_listing_order_witness :
  text_at (files (main ∅ (registry_of grants_token (lists [JStr "svc-a"; JStr "svc-a"])
                            (fun _ => hosts [record_a])) store_a).2) output_path
    = Some (Json.dumps (JArr (concat [[target_a]; [target_a]]))).
Proof.
  apply (main_publishes_targets_in_listing_order ∅
           (registry_of grants_token (lists [JStr "svc-a"; JStr "svc-a"])
              (fun _ => hosts [record_a]))
           store_a (JArr [JStr "svc-a"; JStr "svc-a"]) [JStr "svc-a"; JStr "svc-a"]
           [[target_a]; [target_a]]); try (vm_compute; reflexivity).
  repeat constructor.
Defined.

(** The log of a cycle: what was there, then the cycle's records, the
    last of which tells how it ended. *)
Lemma main_log env reg st :
  exists l,
    logs (main env reg st).2 =
    logs st ++ l ++ [match (main env reg st).1 with
                     | Ok _ => (INFO, CompletedSuccessfully)
                     | Raise e => (ERROR, ExecutionError e)
                     end].
Proof.
  unfold main, try_except, is_Exception.
  unfold mbind, M_bind, put_config, lift, log, raise. simpl.
  destruct (authenticate_run reg
              {| config := NacosConfig_init env; files := files st; logs := logs st |})
    as [l1 H1].
  simpl in H1. rewrite H1. clear H1.
  destruct (returned (NacosClient.authenticate reg) (NacosConfig_init env)) as [[]|e].
  2:{ exists l1. simpl. by rewrite app_assoc. }
  set (cfg1 := config_after (NacosClient.authenticate reg) (NacosConfig_init env)).
  set (st1 := {| config := cfg1; files := files st; logs := logs st ++ l1 |}).
  destruct (get_services_read_only reg st1) as [l2 H2]. rewrite H2. clear H2. simpl.
  destruct (returned (NacosClient.get_services reg) cfg1) as [services|e].
  2:{ exists (l1 ++ l2). simpl. by rewrite !app_assoc. }
  destruct (Py.iter services) as [names|e].
  2:{ exists (l1 ++ l2). simpl. by rewrite !app_assoc. }
  destruct (collect_targets_read_only reg names [] (add_logs st1 l2)) as [l3 H3].
  rewrite H3. clear H3. simpl.
  destruct (returned (collect_targets reg names []) cfg1) as [doc|e].
  2:{ exists (l1 ++ l2 ++ l3). simpl. by rewrite !app_assoc. }
  destruct (save_config_logs doc (add_logs (add_logs st1 l2) l3)) as [l4 H4].
  destruct (PrometheusConfigGenerator.save_config doc output_path config_dir _)
    as [[[]|e] st4]; simpl in *.
  all: exists (l1 ++ l2 ++ l3 ++ l4); rewrite H4; by rewrite !app_assoc.
Qed.

(** X20. A cycle only appends to the log, and its last record tells how
    it ended: the completion message when it returns, the execution error
    with the exception when it raises. *)
Theorem main_last_log_record env reg st :
  (exists l, logs (main env reg st).2 = logs st ++ l) /\
  last (logs (main env reg st).2) =
    Some (match (main env reg st).1 with
          | Ok _ => (INFO, CompletedSuccessfully)
          | Raise e => (ERROR, ExecutionError e)
          end).
Proof.
  destruct (main_log env reg st) as [l Hl]. rewrite Hl. split.
  - by eexists.
  - by rewrite app_assoc, last_snoc.
Qed.

Ltac run_job :=
  unfold discovery_job, job_try_except, job_log, call, is_Exception;
  unfold mbind, J_bind; simpl.

Lemma discovery_job_run env reg p :
  discovery_job env reg p =
  (Ok tt,
   {| state := (main env reg (state p)).2;
      job_logs := job_logs p ++ [(INFO, JobStarted);
                                 match (main env reg (state p)).1 with
                                 | Ok _ => (INFO, JobCompleted)
                                 | Raise e => (ERROR, JobFailed e)
                                 end] |}).
Proof.
  run_job. destruct (main env reg (state p)) as [[[]|e] st']; simpl;
    by rewrite <- app_assoc.
Qed.

Lemma discovery_jobs_ok env regs p : (discovery_jobs env regs p).1 = Ok tt.
Proof.
  revert p. induction regs as [|reg rest IH]; intros p; simpl; [done|].
  unfold mbind, J_bind. rewrite discovery_job_run. apply IH.
Qed.

Lemma discovery_jobs_cons env reg rest p :
  discovery_jobs env (reg :: rest) p = discovery_jobs env rest (discovery_job env reg p).2.
Proof. simpl. unfold mbind, J_bind. by rewrite discovery_job_run. Qed.

(** X23. Published targets go stale rather than away: after a cycle that
    published, any number of jobs whose cycles fail before publishing
    (login refused, registry down, malformed record) leave every file as
    that cycle left it. *)
Theorem failing_jobs_keep_published_files env reg later p doc :
  cycle_document env reg = Ok doc ->
  publishable (files (state p)) = true ->
  Forall (fun r => exists e, cycle_document env r = Raise e) later ->
  (discovery_jobs env (reg :: later) p).1 = Ok tt /\
  files (state (discovery_jobs env (reg :: later) p).2)
    = published (Json.dumps (JArr doc)) (files (state p)).
Proof.
  intros Hdoc Hfs Hlater. split; [apply discovery_jobs_ok|].
  rewrite discovery_jobs_cons.
  destruct (main_publishes env reg (state p) doc Hdoc Hfs) as [_ Hfiles].
  assert (H1 : files (state (discovery_job env reg p).2)
               = published (Json.dumps (JArr doc)) (files (state p))).
  { rewrite discovery_job_run. done. }
  rewrite <- H1. clear H1 Hfiles Hfs Hdoc.
  generalize (discovery_job env reg p).2. intros q.
  revert q. induction Hlater as [|r rest [e He] _ IH]; intros q; [done|].
  rewrite discovery_jobs_cons, IH, discovery_job_run. simpl.
  by destruct (main_raises env r (state q) e He).
Qed.

Lemma failing_jobs_keep_published_files_witness :
  files (state (discovery_jobs ∅ [registry_a; registry_down; registry_malformed]
                  {| state := store_a; job_logs := [] |}).2)
    = published (Json.dumps (JArr [target_a])) (files store_a).
Proof.
  apply (failing_jobs_keep_published_files ∅ registry_a [registry_down; registry_malformed]
           {| state := store_a; job_logs := [] |} [target_a]).
  - vm_compute; reflexivity.
  - vm_compute; reflexivity.
  - repeat constructor; eexists; vm_compute; reflexivity.
Defined.
